(** * api-gateway: the request-handling core, embedded in Rocq

    The Go packages of the gateway are embedded shallowly, one Rocq module
    per package:

    - [ratelimiter]  pkg/ratelimiter/token_bucket.go
    - [proxy]        internal/proxy     (the reverse-proxy cache)
    - [handler]      internal/handler   (the terminal route handler)
    - [router]       internal/router/router.go
    - [middleware]   internal/middleware/auth_middleware.go
    - [gateway]      cmd/gateway/main.go (route loading and hot reload)

    Go's [int] and [time.Duration] are 64-bit signed integers; they are
    modelled as [Z] with the wrap-around written out ([wrap64]).  Mutable
    objects reached through pointers (the limiter, the cached
    [httputil.ReverseProxy] values, the router) are threaded explicitly,
    and code that runs under a mutex is one step.  The definitions come
    first; the properties proved about them follow. *)

From Stdlib Require Import ZArith Lia Bool Ascii String DecimalString.
From stdpp Require Import base option list strings gmap.

Local Open Scope Z_scope.

(** ** Machine integers and time *)

Definition min_int64 : Z := - 2 ^ 63.
Definition max_int64 : Z := 2 ^ 63 - 1.

(** Two's-complement wrap-around of a mathematical integer to [int64]. *)
Definition wrap64 (z : Z) : Z := (z + 2 ^ 63) mod 2 ^ 64 - 2 ^ 63.

Definition in_int64 (z : Z) : Prop := min_int64 <= z <= max_int64.

(** [time.Duration]: nanoseconds. *)
Definition Nanosecond : Z := 1.
Definition Millisecond : Z := 1000000.
Definition Second : Z := 1000000000.

(** A [time.Time] is represented by its monotonic clock reading in
  nanoseconds.  [Time.Sub] saturates at the ends of the [Duration]
  range. *)
Definition time_Sub (t u : Z) : Z :=
  Z.max min_int64 (Z.min max_int64 (t - u)).

(** ** pkg/ratelimiter *)

Module ratelimiter.

Record TokenBucketLimiter := mkLimiter {
  capacity : Z;
  tokens : Z;
  refillRate : Z;
  refillInterval : Z;
  lastRefillTime : Z;
  refillPerInterval : Z
}.

Definition set_tokens (l : TokenBucketLimiter) (n : Z) : TokenBucketLimiter :=
  mkLimiter (capacity l) n (refillRate l) (refillInterval l)
            (lastRefillTime l) (refillPerInterval l).

Definition set_lastRefillTime (l : TokenBucketLimiter) (t : Z) : TokenBucketLimiter :=
  mkLimiter (capacity l) (tokens l) (refillRate l) (refillInterval l)
            t (refillPerInterval l).

(** [int(float64(requests) / interval.Seconds())] computed with exact
    arithmetic: the quotient of [requests * 10^9] by the interval in
    nanoseconds, truncated.  It coincides with the floating-point
    computation whenever the latter is exact (in particular on every
    concrete configuration evaluated below). *)
Definition exact_rate (requests interval : Z) : Z :=
  wrap64 (Z.quot (requests * Second) interval).

Section WithRate.

(** The conversion [int(float64(requests) / interval.Seconds())] of the
    constructor.  The results about [Allow] hold whatever it returns. *)
Variable rate_of : Z -> Z -> Z.

Definition NewTokenBucketLimiter (requests interval : Z) (now : Z)
  : TokenBucketLimiter :=
  let requests := if requests <=? 0 then 100 else requests in
  let interval := if interval <=? 0 then Second else interval in
  let refillPerInterval := requests in
  let refillRate := rate_of requests interval in
  if refillRate <=? 0 then
    let refillRate := 1 in
    let refillPerInterval := refillRate in
    let interval := Z.quot Second requests in
    mkLimiter requests requests refillRate interval now refillPerInterval
  else
    mkLimiter requests requests refillRate interval now refillPerInterval.

End WithRate.

(** [refill]: [None] is the run-time panic of an integer division by
    zero. *)
Definition refill (limiter : TokenBucketLimiter) (now : Z)
  : option TokenBucketLimiter :=
  let elapsedTime := time_Sub now (lastRefillTime limiter) in
  if refillInterval limiter <=? elapsedTime then
    if refillInterval limiter =? 0 then None
    else
      let intervals := wrap64 (Z.quot elapsedTime (refillInterval limiter)) in
      let tokensToAdd := wrap64 (intervals * refillPerInterval limiter) in
      let tokens1 := wrap64 (tokens limiter + tokensToAdd) in
      let tokens2 :=
        if capacity limiter <? tokens1 then capacity limiter else tokens1 in
      Some (set_lastRefillTime (set_tokens limiter tokens2) now)
  else Some limiter.

Definition Allow (limiter : TokenBucketLimiter) (now : Z)
  : option (bool * TokenBucketLimiter) :=
  match refill limiter now with
  | None => None
  | Some limiter =>
      if 0 <? tokens limiter
      then Some (true, set_tokens limiter (wrap64 (tokens limiter - 1)))
      else Some (false, limiter)
  end.

(** Successive calls, one per clock reading, with their answers. *)
Fixpoint Allows (limiter : TokenBucketLimiter) (times : list Z)
  : option (list bool * TokenBucketLimiter) :=
  match times with
  | [] => Some ([], limiter)
  | now :: times =>
      match Allow limiter now with
      | None => None
      | Some (b, limiter) =>
          match Allows limiter times with
          | None => None
          | Some (bs, limiter) => Some (b :: bs, limiter)
          end
      end
  end.

(** The amount a refill at [now] adds before the cap, as a mathematical
    integer: it fits when the sum with the current count is an [int64]. *)
Definition refill_fits (limiter : TokenBucketLimiter) (now : Z) : Prop :=
  let elapsedTime := time_Sub now (lastRefillTime limiter) in
  refillInterval limiter <= elapsedTime ->
  tokens limiter
    + Z.quot elapsedTime (refillInterval limiter) * refillPerInterval limiter
    <= max_int64.

(** Limiter states reached from [l0] by successive [Allow] calls, each at
    its own clock reading and none overflowing. *)
Inductive reaches (l0 : TokenBucketLimiter) : TokenBucketLimiter -> Prop :=
| reaches_init : reaches l0 l0
| reaches_Allow l now b l' :
    reaches l0 l -> refill_fits l now -> Allow l now = Some (b, l') ->
    reaches l0 l'.

(** *** Concurrent callers

    [Allow] takes no lock (the struct has no mutex field), so two
    goroutines run its statements interleaved.  A caller is at one of
    the statements of [Allow] - the call [limiter.refill()], the test
    [limiter.tokens > 0], the decrement [limiter.tokens--] - each taken as
    one step; a schedule picks which caller moves. *)
Inductive pc := AtRefill | AtCheck | AtDecrement | Returned (b : bool).

Definition step_caller (now : Z) (limiter : TokenBucketLimiter) (p : pc)
  : option (TokenBucketLimiter * pc) :=
  match p with
  | AtRefill =>
      match refill limiter now with
      | Some l => Some (l, AtCheck)
      | None => None
      end
  | AtCheck =>
      if 0 <? tokens limiter then Some (limiter, AtDecrement)
      else Some (limiter, Returned false)
  | AtDecrement =>
      Some (set_tokens limiter (wrap64 (tokens limiter - 1)), Returned true)
  | Returned b => Some (limiter, Returned b)
  end.

(** Two callers; [true] in the schedule moves the first one. *)
Fixpoint run_two (now : Z) (schedule : list bool)
  (limiter : TokenBucketLimiter) (p1 p2 : pc)
  : option (TokenBucketLimiter * pc * pc) :=
  match schedule with
  | [] => Some (limiter, p1, p2)
  | true :: schedule =>
      match step_caller now limiter p1 with
      | Some (l, p1) => run_two now schedule l p1 p2
      | None => None
      end
  | false :: schedule =>
      match step_caller now limiter p2 with
      | Some (l, p2) => run_two now schedule l p1 p2
      | None => None
      end
  end.

(** The limiter invariant carried through [Allow]. *)
Definition bounded (l : TokenBucketLimiter) : Prop :=
  0 <= tokens l <= capacity l.

Definition well_formed (l : TokenBucketLimiter) : Prop :=
  bounded l /\ capacity l <= max_int64
  /\ 0 <= refillInterval l /\ 0 < refillPerInterval l.

End ratelimiter.

(** ** The library types the gateway is written against *)

(** [strings.ToLower] on ASCII letters; bytes outside [A-Z] are kept.  No
    rune outside ASCII lower-cases to a letter of "jwt", "oauth2" or
    "none", so the comparisons the middleware makes on the result come out
    as they do in Go. *)
Definition ascii_ToLower (c : ascii) : ascii :=
  let n := nat_of_ascii c in
  if ((65 <=? n)%nat && (n <=? 90)%nat)%bool then ascii_of_nat (n + 32) else c.

Fixpoint strings_ToLower (s : string) : string :=
  match s with
  | EmptyString => EmptyString
  | String c s => String (ascii_ToLower c) (strings_ToLower s)
  end.

(** [strings.Replace(s, old, new, 1)] for a non-empty [old]: the first
    occurrence is replaced. *)
Fixpoint strings_Replace1 (s old new : string) : string :=
  if String.prefix old s
  then new +:+ String.substring (String.length old)
                               (String.length s - String.length old) s
  else match s with
       | EmptyString => EmptyString
       | String c s => String c (strings_Replace1 s old new)
       end.

(** [fmt.Sprintf("%d", n)] *)
Definition Itoa (n : Z) : string := NilZero.string_of_int (Z.to_int n).

(** [net/url]: the fields of [url.URL] the gateway touches. *)
Module url.
Record URL := mkURL { Scheme : string; Host : string; Path : string }.
End url.

(** [net/http] *)
Module http.

Definition StatusOK : Z := 200.
Definition StatusUnauthorized : Z := 401.
Definition StatusNotFound : Z := 404.
Definition StatusTooManyRequests : Z := 429.
Definition StatusInternalServerError : Z := 500.
Definition StatusBadGateway : Z := 502.

Definition Headers := list (string * string).

Fixpoint Header_Get (h : Headers) (key : string) : string :=
  match h with
  | [] => ""
  | (k, v) :: h => if String.eqb k key then v else Header_Get h key
  end.

Fixpoint Header_Set (h : Headers) (key value : string) : Headers :=
  match h with
  | [] => [(key, value)]
  | (k, v) :: h =>
      if String.eqb k key then (k, value) :: h
      else (k, v) :: Header_Set h key value
  end.

(** A request: [ctx_claims] and [ctx_timeout] are the two values the
    gateway attaches to the request context ([context.WithValue] under the
    key "claims", [context.WithTimeout]). *)
Record Request := mkRequest {
  Method : string;
  URL : url.URL;
  Host : string;
  Header : Headers;
  ctx_claims : option (list (string * string));
  ctx_timeout : option Z
}.

Definition set_URL (r : Request) (u : url.URL) : Request :=
  mkRequest (Method r) u (Host r) (Header r) (ctx_claims r) (ctx_timeout r).
Definition set_Host (r : Request) (h : string) : Request :=
  mkRequest (Method r) (URL r) h (Header r) (ctx_claims r) (ctx_timeout r).
Definition set_Header (r : Request) (h : Headers) : Request :=
  mkRequest (Method r) (URL r) (Host r) h (ctx_claims r) (ctx_timeout r).
Definition WithClaims (r : Request) (c : list (string * string)) : Request :=
  mkRequest (Method r) (URL r) (Host r) (Header r) (Some c) (ctx_timeout r).

(** [context.WithTimeout(r.Context(), d)]: the earlier deadline wins. *)
Definition WithTimeout (r : Request) (d : Z) : Request :=
  let d' := match ctx_timeout r with
            | Some d0 => Z.min d0 d
            | None => d
            end in
  mkRequest (Method r) (URL r) (Host r) (Header r) (ctx_claims r) (Some d').

(** What a client has received through a [ResponseWriter]: the header map,
    the status line once written, and the body bytes. *)
Record ResponseWriter := mkResponseWriter {
  rwHeader : Headers;
  rwStatus : option Z;
  rwBody : string
}.

Definition NewResponseWriter : ResponseWriter := mkResponseWriter [] None "".

(** A second [WriteHeader] is ignored by the server. *)
Definition WriteHeader (w : ResponseWriter) (code : Z) : ResponseWriter :=
  match rwStatus w with
  | Some _ => w
  | None => mkResponseWriter (rwHeader w) (Some code) (rwBody w)
  end.

Definition Write (w : ResponseWriter) (b : string) : ResponseWriter :=
  let w := WriteHeader w StatusOK in
  mkResponseWriter (rwHeader w) (rwStatus w) (rwBody w +:+ b).

Definition set_rwHeader (w : ResponseWriter) (key value : string) : ResponseWriter :=
  mkResponseWriter (Header_Set (rwHeader w) key value) (rwStatus w) (rwBody w).

(** [http.Error] *)
Definition Error (w : ResponseWriter) (error : string) (code : Z) : ResponseWriter :=
  let w := set_rwHeader w "Content-Type" "text/plain; charset=utf-8" in
  let w := set_rwHeader w "X-Content-Type-Options" "nosniff" in
  let w := WriteHeader w code in
  Write w (error +:+ String (ascii_of_nat 10) "").

(** A backend's answer as the transport returns it. *)
Record Response := mkResponse {
  StatusCode : Z;
  respHeader : Headers;
  Body : string
}.

End http.

(** [go.uber.org/zap]: the entries a logger has been handed. *)
Module zap.
Inductive Level := DebugLevel | InfoLevel | WarnLevel | ErrorLevel.
Record Entry := mkEntry {
  level : Level;
  msg : string;
  fields : list (string * string)
}.
End zap.

(** [github.com/golang-jwt/jwt/v5]: the outcome of [jwt.Parse]. *)
Module jwt.
Inductive Result :=
| Err (e : string)
| Token (claims : option (list (string * string))) (Valid : bool).
End jwt.

(** internal/config *)
Module config.

Record RateLimitConfig := mkRateLimitConfig {
  rlEnabled : bool;
  Requests : Z;
  Interval : Z
}.

Record JWTAuthConfig := mkJWTAuthConfig { SecretKey : string }.

Record OAuth2Config := mkOAuth2Config {
  oaEnabled : bool;
  TokenEndpoint : string;
  ClientID : string;
  ClientSecret : string
}.

Record AuthConfig := mkAuthConfig {
  Enabled : bool;
  Type_ : string;
  JWT : JWTAuthConfig;
  OAuth2 : OAuth2Config
}.

Record RouteConfig := mkRouteConfig {
  Path : string;
  TargetURL : string;
  ServiceName : string;
  Timeout : string
}.

Record Config := mkConfig {
  Port : Z;
  LogLevel : string;
  RateLimit : RateLimitConfig;
  Auth : AuthConfig;
  Routes : list RouteConfig
}.

Definition with_Routes (c : Config) (routes : list RouteConfig) : Config :=
  mkConfig (Port c) (LogLevel c) (RateLimit c) (Auth c) routes.

End config.

(** internal/service/consul: the part of the discovery interface that
    route loading calls. *)
Module consul.

Record ServiceInstance := mkServiceInstance {
  ID : string;
  Host : string;
  Port : Z
}.

(** [GetServiceInstances]: an error, or the instances found. *)
Definition ServiceDiscovery := string -> string + list ServiceInstance.

(** An entry of the health query of the Consul client: the service's id,
    address and port, and the address of the node it runs on. *)
Record ServiceEntry := mkServiceEntry {
  Service_ID : string;
  Service_Address : string;
  Service_Port : Z;
  Node_Address : string
}.

(** [ConsulServiceDiscovery.GetServiceInstances], over the health query
    [health_Service] of the client (healthy instances only). *)
Definition GetServiceInstances
  (health_Service : string -> string + list ServiceEntry) : ServiceDiscovery :=
  fun serviceName =>
    match health_Service serviceName with
    | inl err => inl ("从 Consul 查询服务实例失败: " +:+ err)
    | inr services =>
        inr (map (fun service =>
                    let instance :=
                      mkServiceInstance (Service_ID service)
                                        (Service_Address service)
                                        (Service_Port service) in
                    if String.eqb (Host instance) ""
                    then mkServiceInstance (ID instance) (Node_Address service)
                                           (Port instance)
                    else instance)
                 services)
    end.

End consul.

(** [net/http/httputil]: the two function fields of a [ReverseProxy] the
    gateway assigns.  An error handler acts on the response writer and on
    the log. *)
Module httputil.

Record ReverseProxy := mkReverseProxy {
  Director : http.Request -> http.Request;
  ErrorHandler :
    http.ResponseWriter -> http.Request -> string -> list zap.Entry ->
    http.ResponseWriter * list zap.Entry
}.

End httputil.

(** The collaborators outside the repository: URL and duration parsing,
    token verification, and the HTTP transport towards the backends. *)
Class Collaborators := {
  url_Parse : string -> string + url.URL;
  time_ParseDuration : string -> option Z;
  jwt_Parse : string -> string -> jwt.Result;
  RoundTrip : http.Request -> string + http.Response
}.

(** ** The shared process state a request handler runs against

    [currentCfg] is the global of main.go; [objects] holds the
    [*httputil.ReverseProxy] values, a pointer being an index into it;
    [logs] is what the logger received; [sent] lists the outbound requests
    handed to the transport; [rw] is the response writer of the request
    being served. *)
Record World := mkWorld {
  currentCfg : config.Config;
  objects : list httputil.ReverseProxy;
  logs : list zap.Entry;
  sent : list http.Request;
  rw : http.ResponseWriter
}.

Definition set_currentCfg (w : World) (c : config.Config) : World :=
  mkWorld c (objects w) (logs w) (sent w) (rw w).
Definition set_objects (w : World) (o : list httputil.ReverseProxy) : World :=
  mkWorld (currentCfg w) o (logs w) (sent w) (rw w).
Definition set_logs (w : World) (l : list zap.Entry) : World :=
  mkWorld (currentCfg w) (objects w) l (sent w) (rw w).
Definition set_sent (w : World) (s : list http.Request) : World :=
  mkWorld (currentCfg w) (objects w) (logs w) s (rw w).
Definition set_rw (w : World) (x : http.ResponseWriter) : World :=
  mkWorld (currentCfg w) (objects w) (logs w) (sent w) x.

Definition log (lvl : zap.Level) (m : string) (fs : list (string * string))
  (w : World) : World :=
  set_logs w (logs w ++ [zap.mkEntry lvl m fs]).

(** An [http.Handler]: serving one request transforms the state. *)
Definition Handler := http.Request -> World -> World.

Section ServeHTTP.
Context `{Collaborators}.

(** [ServeHTTP] of an [httputil.ReverseProxy], for the one at address [p]: the
    director rewrites a copy of the request, the transport carries it, and
    either the error handler runs or the backend's status, headers and body
    are copied to the client.  (Hop-by-hop header handling is left out.) *)
Definition ReverseProxy_ServeHTTP (p : nat) (req : http.Request) (w : World)
  : World :=
  match objects w !! p with
  | None => w
  | Some obj =>
      let outreq := httputil.Director obj req in
      let w := set_sent w (sent w ++ [outreq]) in
      match RoundTrip outreq with
      | inl err =>
          let '(x, l) := httputil.ErrorHandler obj (rw w) outreq err (logs w) in
          set_logs (set_rw w x) l
      | inr res =>
          let x := fold_left (fun x kv => http.set_rwHeader x kv.1 kv.2)
                             (http.respHeader res) (rw w) in
          let x := http.WriteHeader x (http.StatusCode res) in
          set_rw w (http.mkResponseWriter (http.rwHeader x) (http.rwStatus x)
                                          (http.rwBody x +:+ http.Body res))
      end
  end.

End ServeHTTP.

(** ** internal/proxy: the reverse-proxy cache *)

Module proxy.

(** [proxies] maps a target URL string to the address of its proxy.  The
    mutex makes [GetProxy] one indivisible step, which is how it is
    written here. *)
Record ReverseProxy := mkReverseProxy { proxies : gmap string nat }.

Definition NewReverseProxy : ReverseProxy := mkReverseProxy ∅.

(** The [Director] closure built by [GetProxy]. *)
Definition director (targetURL : url.URL) (req : http.Request) : http.Request :=
  let u := url.mkURL (url.Scheme targetURL) (url.Host targetURL)
                     (url.Path targetURL) in
  http.set_Host (http.set_URL req u) (url.Host targetURL).

(** The [ErrorHandler] closure built by [GetProxy]. *)
Definition errorHandler (w : http.ResponseWriter) (r : http.Request)
  (err : string) (l : list zap.Entry) : http.ResponseWriter * list zap.Entry :=
  let l := l ++ [zap.mkEntry zap.ErrorLevel "反向代理错误"
                   [("path", url.Path (http.URL r)); ("error", err)]] in
  let w := http.WriteHeader w http.StatusBadGateway in
  (http.Write w ("反向代理错误" +:+ String (ascii_of_nat 10) ""), l).

Section GetProxy.
Context `{Collaborators}.

Definition GetProxy (rp : ReverseProxy) (targetURLStr : string) (w : World)
  : (string + nat) * ReverseProxy * World :=
  match proxies rp !! targetURLStr with
  | Some p => (inr p, rp, w)
  | None =>
      match url_Parse targetURLStr with
      | inl err => (inl err, rp, w)
      | inr targetURL =>
          let p := length (objects w) in
          let obj := httputil.mkReverseProxy (director targetURL) errorHandler in
          (inr p,
           mkReverseProxy (<[targetURLStr := p]> (proxies rp)),
           set_objects w (objects w ++ [obj]))
      end
  end.

(** The cache and the state after any number of [GetProxy] calls, with
    requests served in between (serving assigns fields of the proxies but
    neither creates nor drops one). *)
Inductive calls : ReverseProxy * World -> ReverseProxy * World -> Prop :=
| calls_done st : calls st st
| calls_GetProxy rp w targetURLStr res rp' w' st :
    GetProxy rp targetURLStr w = (res, rp', w') ->
    calls (rp', w') st -> calls (rp, w) st
| calls_serve rp w w' st :
    length (objects w') = length (objects w) ->
    calls (rp, w') st -> calls (rp, w) st.

(** Every cached address is allocated, and no two targets share one. *)
Definition consistent (rp : ReverseProxy) (w : World) : Prop :=
  (forall s p, proxies rp !! s = Some p -> (p < length (objects w))%nat)
  /\ (forall s s' p, proxies rp !! s = Some p -> proxies rp !! s' = Some p ->
                     s = s')
  /\ size (proxies rp) = length (objects w).

(** Every cached target is one the URL parser accepts. *)
Definition parseable (rp : ReverseProxy) : Prop :=
  forall s p, proxies rp !! s = Some p -> exists u, url_Parse s = inr u.

End GetProxy.

End proxy.

(** ** internal/handler: the terminal route handler *)

Module handler.

(** The [director] closure of [ProxyHandler]. *)
Definition director (targetURL : string) (req : http.Request) : http.Request :=
  let u := url.mkURL "http" targetURL (url.Path (http.URL req)) in
  let req := http.set_Host (http.set_URL req u) targetURL in
  http.set_Header req (http.Header_Set (http.Header req) "X-Gateway-Request" "true").

(** The error handler assigned on every request. *)
Definition errorHandler (targetURL : string) (rw : http.ResponseWriter)
  (req : http.Request) (err : string) (l : list zap.Entry)
  : http.ResponseWriter * list zap.Entry :=
  let l := l ++ [zap.mkEntry zap.ErrorLevel "反向代理请求失败"
                   [("path", url.Path (http.URL req));
                    ("target_url", targetURL); ("error", err)]] in
  let rw := http.WriteHeader rw http.StatusBadGateway in
  (http.Write rw "后端服务不可用", l).

Definition set_Director (p : nat) (d : http.Request -> http.Request) (w : World)
  : World :=
  set_objects w
    (alter (fun o => httputil.mkReverseProxy d (httputil.ErrorHandler o)) p
           (objects w)).

Definition set_ErrorHandler (p : nat)
  (e : http.ResponseWriter -> http.Request -> string -> list zap.Entry ->
       http.ResponseWriter * list zap.Entry) (w : World) : World :=
  set_objects w
    (alter (fun o => httputil.mkReverseProxy (httputil.Director o) e) p
           (objects w)).

Section ProxyHandler.
Context `{Collaborators}.

Definition ProxyHandler (proxy : nat) (targetURL : string) (timeout : Z)
  : Handler :=
  fun r w =>
    let r := http.WithTimeout r timeout in
    let w := set_Director proxy (director targetURL) w in
    let w := set_ErrorHandler proxy (errorHandler targetURL) w in
    ReverseProxy_ServeHTTP proxy r w.

End ProxyHandler.

End handler.

(** ** internal/router *)

Module router.

Section Router.
(** The handler type; the router only composes and stores handlers. *)
Variable H : Type.

(** [mux] is the embedded gorilla/mux router: the registered routes in
    registration order. *)
Record Router := mkRouter {
  mux : list (string * H);
  middlewares : list (H -> H)
}.

Definition NewRouter : Router := mkRouter [] [].

Definition Use (r : Router) (middleware : H -> H) : Router :=
  mkRouter (mux r) (middlewares r ++ [middleware]).

(** The loop [for i := len(r.middlewares) - 1; i >= 0; i--], entered with
    [n = i + 1]. *)
Fixpoint wrap_from (mws : list (H -> H)) (n : nat) (handler : H) : H :=
  match n with
  | O => handler
  | S i =>
      match mws !! i with
      | Some m => wrap_from mws i (m handler)
      | None => wrap_from mws i handler
      end
  end.

Definition HandleFunc (r : Router) (path : string) (handler : H) : Router :=
  let handler := wrap_from (middlewares r) (length (middlewares r)) handler in
  mkRouter (mux r ++ [(path, handler)]) (middlewares r).

Definition ClearRoutes (r : Router) : Router :=
  mkRouter [] (middlewares r).

(** Route matching of the embedded router: the first registered route whose
    path equals the request path (path templates are not used by the
    gateway's configuration). *)
Fixpoint Match (routes : list (string * H)) (path : string) : option H :=
  match routes with
  | [] => None
  | (p, h) :: routes => if String.eqb p path then Some h else Match routes path
  end.

End Router.

Arguments mkRouter {H} _ _.
Arguments mux {H} _.
Arguments middlewares {H} _.
Arguments NewRouter {H}.
Arguments Use {H} _ _.
Arguments wrap_from {H} _ _ _.
Arguments HandleFunc {H} _ _ _.
Arguments ClearRoutes {H} _.
Arguments Match {H} _ _.

(** Middlewares that only record their passage in a trace, used to observe
    execution order: handlers are functions from a trace to a trace. *)
Inductive Event := Enter (k : nat) | Leave (k : nat) | Terminal.

Definition tracing (k : nat) (next : list Event -> list Event)
  : list Event -> list Event :=
  fun t => next (t ++ [Enter k]) ++ [Leave k].

Definition terminal : list Event -> list Event := fun t => t ++ [Terminal].

(** The router after [Use (tracing 0)], ..., [Use (tracing (n - 1))]. *)
Definition traced (n : nat) : Router (list Event -> list Event) :=
  fold_left Use (map tracing (seq 0 n)) NewRouter.

End router.

(** ** internal/middleware: authentication *)

Module middleware.

Section Auth.
Context `{Collaborators}.

Definition jwtAuth (jwtConfig : config.JWTAuthConfig) (next : Handler) : Handler :=
  let secretKey := config.SecretKey jwtConfig in
  fun r w =>
    let authHeader := http.Header_Get (http.Header r) "Authorization" in
    if String.eqb authHeader "" then
      let w := log zap.WarnLevel "JWT 认证：未提供 Authorization Header"
                   [("path", url.Path (http.URL r))] w in
      set_rw w (http.Error (rw w) "未授权" http.StatusUnauthorized)
    else
      let tokenString := strings_Replace1 authHeader "Bearer " "" in
      match jwt_Parse secretKey tokenString with
      | jwt.Err e =>
          let w := log zap.WarnLevel "JWT 认证：Token 解析失败"
                       [("path", url.Path (http.URL r)); ("error", e)] w in
          set_rw w (http.Error (rw w) "无效的Token" http.StatusUnauthorized)
      | jwt.Token (Some claims) true =>
          next (http.WithClaims r claims) w
      | jwt.Token _ _ =>
          let w := log zap.WarnLevel "JWT 认证：Token 验证失败"
                       [("path", url.Path (http.URL r))] w in
          set_rw w (http.Error (rw w) "无效的Token" http.StatusUnauthorized)
      end.

(** [getAuthConfig] reads the current configuration when the request is
    served. *)
Definition AuthMiddleware (getAuthConfig : World -> config.AuthConfig)
  : Handler -> Handler :=
  fun next r w =>
    let authConfig := getAuthConfig w in
    if negb (config.Enabled authConfig) then next r w
    else
      let authType := strings_ToLower (config.Type_ authConfig) in
      if String.eqb authType "jwt" then
        jwtAuth (config.JWT authConfig) next r w
      else if String.eqb authType "oauth2" then next r w
      else if String.eqb authType "none" then next r w
      else
        let w := log zap.WarnLevel "未知的认证类型，跳过认证"
                     [("auth_type", authType)] w in
        next r w.

End Auth.

(** *** Rate limiting *)

Section RateLimiter.
(** The float conversion of the limiter's constructor. *)
Variable rate_of : Z -> Z -> Z.

(** [RateLimiterMiddleware] builds its limiter once, when it is created (at
    clock reading [now0]) from the configuration value it is given; [None]
    is the pass-through middleware returned when limiting is disabled. *)
Definition RateLimiterMiddleware (rateLimitConfig : config.RateLimitConfig)
  (now0 : Z) : option ratelimiter.TokenBucketLimiter :=
  if negb (config.rlEnabled rateLimitConfig) then None
  else Some (ratelimiter.NewTokenBucketLimiter rate_of
               (config.Requests rateLimitConfig)
               (config.Interval rateLimitConfig) now0).

End RateLimiter.

(** The branch taken when [Allow] denies. *)
Definition too_many (r : http.Request) (w : World) : World :=
  let w := log zap.WarnLevel "请求被限流" [("path", url.Path (http.URL r))] w in
  set_rw w (http.Error (rw w) "请求过于频繁，请稍后重试"
                       http.StatusTooManyRequests).

(** The handler the middleware returns around [next], serving [r] at clock
    reading [now]; the limiter it closes over is threaded.  [None] is the
    panic of [Allow]. *)
Definition RateLimiter_ServeHTTP
  (limiter : option ratelimiter.TokenBucketLimiter) (next : Handler)
  (r : http.Request) (now : Z) (w : World)
  : option (option ratelimiter.TokenBucketLimiter * World) :=
  match limiter with
  | None => Some (None, next r w)
  | Some l =>
      match ratelimiter.Allow l now with
      | None => None
      | Some (false, l) => Some (Some l, too_many r w)
      | Some (true, l) => Some (Some l, next r w)
      end
  end.

(** Requests served one after the other, each at its clock reading. *)
Fixpoint RateLimiter_serve_all
  (limiter : option ratelimiter.TokenBucketLimiter) (next : Handler)
  (reqs : list (http.Request * Z)) (w : World)
  : option (option ratelimiter.TokenBucketLimiter * World) :=
  match reqs with
  | [] => Some (limiter, w)
  | (r, now) :: reqs =>
      match RateLimiter_ServeHTTP limiter next r now w with
      | None => None
      | Some (limiter, w) => RateLimiter_serve_all limiter next reqs w
      end
  end.

(** *** OAuth 2.0 client credentials *)

Record OAuth2TokenResponse := mkOAuth2TokenResponse {
  AccessToken : string;
  TokenType : string;
  ExpiresIn : Z
}.

(** What [fetchOAuth2Token] reaches outside the process: building the
    request (the error, if the method or URL is refused), the HTTP client
    (URL, form body, basic-auth user and password; a transport error or
    the status and body of the answer), and the JSON decoder. *)
Class TokenEndpoint := {
  http_NewRequest : string -> string -> option string;
  client_Do : string -> string -> string -> string -> string + (Z * string);
  json_Decode : string -> string + OAuth2TokenResponse
}.

Section OAuth2.
Context `{TokenEndpoint}.

Definition fetchOAuth2Token (tokenEndpoint clientID clientSecret : string)
  (w : World) : (string + OAuth2TokenResponse) * World :=
  match http_NewRequest "POST" tokenEndpoint with
  | Some err => (inl ("创建 OAuth 2.0 Token 请求失败: " +:+ err), w)
  | None =>
      match client_Do tokenEndpoint "grant_type=client_credentials"
                      clientID clientSecret with
      | inl err => (inl ("OAuth 2.0 Token 请求失败: " +:+ err), w)
      | inr (status, body) =>
          if negb (status =? http.StatusOK) then
            (inl ("OAuth 2.0 Token 请求失败，状态码: " +:+ Itoa status), w)
          else
            match json_Decode body with
            | inl err => (inl ("解析 OAuth 2.0 Token 响应失败: " +:+ err), w)
            | inr tokenResp =>
                if String.eqb (AccessToken tokenResp) "" then
                  (inl "OAuth 2.0 Token 响应缺少 access_token", w)
                else
                  (inr tokenResp,
                   log zap.DebugLevel "OAuth 2.0 成功获取 Token"
                       [("token_type", TokenType tokenResp);
                        ("expires_in", Itoa (ExpiresIn tokenResp))] w)
            end
      end
  end.

Definition OAuth2Middleware (getAuthConfig : World -> config.AuthConfig)
  : Handler -> Handler :=
  fun next r w =>
    let authConfig := getAuthConfig w in
    if (negb (config.Enabled authConfig)
        || negb (String.eqb (strings_ToLower (config.Type_ authConfig)) "oauth2")
        || negb (config.oaEnabled (config.OAuth2 authConfig)))%bool
    then next r w
    else
      let oauth2Config := config.OAuth2 authConfig in
      match fetchOAuth2Token (config.TokenEndpoint oauth2Config)
                             (config.ClientID oauth2Config)
                             (config.ClientSecret oauth2Config) w with
      | (inl err, w) =>
          let w := log zap.WarnLevel "OAuth 2.0 认证：获取 Token 失败"
                       [("path", url.Path (http.URL r)); ("error", err)] w in
          set_rw w (http.Error (rw w) "OAuth 2.0 认证失败"
                               http.StatusUnauthorized)
      | (inr token, w) =>
          let r := http.set_Header r
                     (http.Header_Set (http.Header r) "Authorization"
                                      ("Bearer " +:+ AccessToken token)) in
          next r w
      end.

End OAuth2.

End middleware.

(** [github.com/fsnotify/fsnotify]: the operation bits of an event. *)
Module fsnotify.
Definition Create : Z := 1.
Definition Write : Z := 2.
Definition Remove : Z := 4.
Definition Rename : Z := 8.
Definition Chmod : Z := 16.
End fsnotify.

(** ** cmd/gateway/main.go: route loading and hot reload *)

Module gateway.

(** The router and the proxy cache that [main] creates, with the shared
    state; [cfgMutex] makes [updateConfig] and every read of [currentCfg]
    indivisible, which is how they are written here. *)
Record Gateway := mkGateway {
  r : router.Router Handler;
  reverseProxy : proxy.ReverseProxy;
  world : World
}.

Definition set_world (g : Gateway) (w : World) : Gateway :=
  mkGateway (r g) (reverseProxy g) w.

Definition updateConfig (cfg : config.Config) (g : Gateway) : Gateway :=
  set_world g (set_currentCfg (world g) cfg).

(** The closure [func() config.AuthConfig] that [main] hands to the
    authentication middlewares. *)
Definition getAuthConfig (w : World) : config.AuthConfig :=
  config.Auth (currentCfg w).

Section Routes.
Context `{Collaborators}.

(** One iteration of the loop of [loadRoutes]; every [continue] leaves the
    router as it is. *)
Definition register_route (serviceDiscovery : option consul.ServiceDiscovery)
  (route : config.RouteConfig) (g : Gateway) : Gateway :=
  let static w :=
    (Some (config.TargetURL route),
     log zap.DebugLevel "使用静态 TargetURL"
         [("path", config.Path route); ("target_url", config.TargetURL route)] w) in
  let '(target, w) :=
    match serviceDiscovery with
    | Some sd =>
        if negb (String.eqb (config.ServiceName route) "") then
          match sd (config.ServiceName route) with
          | inl err =>
              (None, log zap.ErrorLevel "获取服务实例失败"
                         [("service_name", config.ServiceName route);
                          ("error", err)] (world g))
          | inr [] =>
              (None, log zap.WarnLevel "未找到服务实例"
                         [("service_name", config.ServiceName route)] (world g))
          | inr (inst :: _) =>
              let targetURL :=
                "http://" +:+ consul.Host inst +:+ ":" +:+ Itoa (consul.Port inst) in
              (Some targetURL,
               log zap.DebugLevel "使用服务发现，路由到服务实例"
                   [("path", config.Path route);
                    ("service_name", config.ServiceName route);
                    ("target_url", targetURL)] (world g))
          end
        else static (world g)
    | None => static (world g)
    end in
  match target with
  | None => set_world g w
  | Some targetURL =>
      if String.eqb targetURL "" then
        set_world g (log zap.WarnLevel "路由目标 URL 未配置，跳过路由注册"
                         [("path", config.Path route)] w)
      else
        let '(timeout, w) :=
          match time_ParseDuration (config.Timeout route) with
          | Some d => (d, w)
          | None =>
              (10 * Second,
               log zap.WarnLevel "解析路由超时时间失败，使用默认超时时间"
                   [("path", config.Path route)] w)
          end in
        match proxy.GetProxy (reverseProxy g) targetURL w with
        | (inl err, rp, w) =>
            mkGateway (r g) rp
              (log zap.ErrorLevel "获取反向代理失败"
                   [("target_url", targetURL); ("error", err)] w)
        | (inr getProxy, rp, w) =>
            mkGateway
              (router.HandleFunc (r g) (config.Path route)
                 (handler.ProxyHandler getProxy targetURL timeout))
              rp
              (log zap.InfoLevel "注册路由"
                   [("path", config.Path route); ("target_url", targetURL);
                    ("timeout", Itoa timeout)] w)
        end
  end.

(** The loop, and the states it passes through: one per iteration. *)
Fixpoint register_routes (sd : option consul.ServiceDiscovery)
  (routes : list config.RouteConfig) (g : Gateway) : Gateway :=
  match routes with
  | [] => g
  | route :: routes => register_routes sd routes (register_route sd route g)
  end.

Fixpoint register_routes_states (sd : option consul.ServiceDiscovery)
  (routes : list config.RouteConfig) (g : Gateway) : list Gateway :=
  match routes with
  | [] => []
  | route :: routes =>
      let g := register_route sd route g in
      g :: register_routes_states sd routes g
  end.

Definition clear (g : Gateway) : Gateway :=
  mkGateway (router.ClearRoutes (r g)) (reverseProxy g) (world g).

Definition loadRoutes (serviceDiscovery : option consul.ServiceDiscovery)
  (g : Gateway) : Gateway :=
  let routes := config.Routes (currentCfg (world g)) in
  let g := clear g in
  let g := register_routes serviceDiscovery routes g in
  set_world g (log zap.InfoLevel "路由规则加载完成，共注册路由"
                   [("route_count", Itoa (Z.of_nat (length routes)))] (world g)).

(** The successive states of the gateway while [loadRoutes] runs: before
    the call, after [ClearRoutes], after each iteration, and on return.
    The router is not guarded by any lock, so a request served meanwhile
    is matched against the table of one of them. *)
Definition loadRoutes_states (serviceDiscovery : option consul.ServiceDiscovery)
  (g : Gateway) : list Gateway :=
  let routes := config.Routes (currentCfg (world g)) in
  g :: clear g
    :: register_routes_states serviceDiscovery routes (clear g)
    ++ [loadRoutes serviceDiscovery g].

(** The test on the operation bits of an event: a write, creation, removal
    or rename of the watched file. *)
Definition is_change (op : Z) : bool :=
  (Z.land op fsnotify.Write =? fsnotify.Write)
  || (Z.land op fsnotify.Create =? fsnotify.Create)
  || (Z.land op fsnotify.Remove =? fsnotify.Remove)
  || (Z.land op fsnotify.Rename =? fsnotify.Rename).

(** The body of the event branch of [watchConfigChanges], for an event with
    operation bits [op] on file [name]; [loaded] is what
    [config.LoadConfig(configPath)] returns when it is called. *)
Definition on_event (op : Z) (name : string)
  (loaded : string + config.Config)
  (serviceDiscovery : option consul.ServiceDiscovery) (g : Gateway) : Gateway :=
  if is_change op then
    let g := set_world g (log zap.InfoLevel "配置文件发生变化，重新加载配置"
                              [("file", name)] (world g)) in
    match loaded with
    | inr newCfg =>
        let g := updateConfig newCfg g in
        let g := loadRoutes serviceDiscovery g in
        set_world g (log zap.InfoLevel "配置重新加载完成" [] (world g))
    | inl err =>
        set_world g (log zap.ErrorLevel "重新加载配置失败" [("error", err)]
                         (world g))
    end
  else g.

(** The target URL the loop of [loadRoutes] determines for a route, [None]
    where it moves on to the next route before having one. *)
Definition resolve (serviceDiscovery : option consul.ServiceDiscovery)
  (route : config.RouteConfig) : option string :=
  match serviceDiscovery with
  | Some sd =>
      if negb (String.eqb (config.ServiceName route) "") then
        match sd (config.ServiceName route) with
        | inl _ => None
        | inr [] => None
        | inr (inst :: _) =>
            Some ("http://" +:+ consul.Host inst +:+ ":"
                    +:+ Itoa (consul.Port inst))
        end
      else Some (config.TargetURL route)
  | None => Some (config.TargetURL route)
  end.

(** The routes that end up registered: the target is determined, is not
    empty, and is a URL the parser accepts. *)
Definition registers (serviceDiscovery : option consul.ServiceDiscovery)
  (route : config.RouteConfig) : bool :=
  match resolve serviceDiscovery route with
  | Some targetURL =>
      negb (String.eqb targetURL "")
      && match url_Parse targetURL with inr _ => true | inl _ => false end
  | None => false
  end.

(** The timeout a route is registered with. *)
Definition timeout_of (route : config.RouteConfig) : Z :=
  match time_ParseDuration (config.Timeout route) with
  | Some d => d
  | None => 10 * Second
  end.

End Routes.

(** The router and cache of [main] before its first [loadRoutes], for the
    configuration [cfg]; of the middlewares [main] registers, the
    authentication middleware is kept and the others are left out. *)
Definition start `{Collaborators} (cfg : config.Config) : Gateway :=
  mkGateway
    (router.Use router.NewRouter (middleware.AuthMiddleware getAuthConfig))
    proxy.NewReverseProxy
    (mkWorld cfg [] [] [] http.NewResponseWriter).

(** Serving a request: the embedded router picks the handler registered for
    the path, or answers 404. *)
Definition ServeHTTP (g : Gateway) (req : http.Request) : Gateway :=
  match router.Match (router.mux (r g)) (url.Path (http.URL req)) with
  | Some h => set_world g (h req (world g))
  | None =>
      set_world g (set_rw (world g)
                     (http.Error (rw (world g)) "404 page not found"
                                 http.StatusNotFound))
  end.

(** The route table as a reader sees it: the registered paths. *)
Definition paths (g : Gateway) : list string := (router.mux (r g)).*1.

End gateway.

(** ** Sample collaborators

    A small concrete environment on which the definitions can be run: a
    URL parser for the forms [scheme://host] and [scheme://host/path], a
    duration parser for whole seconds, a token check against the secret,
    and a transport that reaches one backend at 10.0.0.5:9000. *)

Module sample.

Fixpoint split_at_slash (s : string) : string * string :=
  match s with
  | EmptyString => ("", "")
  | String c s' =>
      if Ascii.eqb c "/" then ("", s)
      else let '(h, p) := split_at_slash s' in (String c h, p)
  end.

Definition url_Parse (s : string) : string + url.URL :=
  if String.prefix ":" s then inl "missing protocol scheme"
  else match String.index 0 "://" s with
       | Some i =>
           let rest := String.substring (i + 3) (String.length s - (i + 3)) s in
           let '(h, p) := split_at_slash rest in
           inr (url.mkURL (String.substring 0 i s) h p)
       | None => inr (url.mkURL "" "" s)
       end.

Fixpoint digits (s : string) (acc : Z) : option (Z * string) :=
  match s with
  | EmptyString => None
  | String c s' =>
      let n := nat_of_ascii c in
      if ((48 <=? n)%nat && (n <=? 57)%nat)%bool
      then match digits s' (10 * acc + Z.of_nat (n - 48)) with
           | Some x => Some x
           | None => Some (10 * acc + Z.of_nat (n - 48), s')
           end
      else None
  end.

Definition time_ParseDuration (s : string) : option Z :=
  match digits s 0 with
  | Some (n, unit) => if String.eqb unit "s" then Some (n * Second) else None
  | None => None
  end.

Definition jwt_Parse (secretKey tokenString : string) : jwt.Result :=
  if String.eqb tokenString secretKey
  then jwt.Token (Some [("sub", "user")]) true
  else jwt.Err "signature is invalid".

Definition RoundTrip (req : http.Request) : string + http.Response :=
  if String.eqb (url.Host (http.URL req)) "10.0.0.5:9000"
  then inr (http.mkResponse http.StatusOK [("Content-Type", "application/json")]
                            "[]")
  else inl "dial tcp: lookup failed".

#[export] Instance collaborators : Collaborators :=
  Build_Collaborators url_Parse time_ParseDuration jwt_Parse RoundTrip.

Definition no_auth : config.AuthConfig :=
  config.mkAuthConfig false "jwt" (config.mkJWTAuthConfig "secret")
                      (config.mkOAuth2Config false "" "" "").

Definition cfg (routes : list config.RouteConfig) : config.Config :=
  config.mkConfig 8000 "info" (config.mkRateLimitConfig true 1000 Second)
                  no_auth routes.

Definition GET (path : string) : http.Request :=
  http.mkRequest "GET" (url.mkURL "" "" path) "gateway:8000" [] None None.

(** The first route of config/config.yaml, and a discovery that knows one
    healthy instance of its service. *)
Definition users_route : config.RouteConfig :=
  config.mkRouteConfig "/api/users" "" "user-service" "5s".

Definition discovery : consul.ServiceDiscovery :=
  fun serviceName =>
    if String.eqb serviceName "user-service"
    then inr [consul.mkServiceInstance "user-service-1" "10.0.0.5" 9000]
    else inr [].

(** Two routes with static targets. *)
Definition static_users : config.RouteConfig :=
  config.mkRouteConfig "/api/users" "http://localhost:8081" "" "5s".

Definition static_orders : config.RouteConfig :=
  config.mkRouteConfig "/api/orders" "http://localhost:8082" "" "10s".

End sample.

(** A token endpoint that grants the token "t0k3n" to the client
    "your-client-id" with the secret "your-client-secret" and answers 401
    to anyone else; the decoder takes the body for the access token. *)
Module sample_oauth2.

Definition http_NewRequest (method url : string) : option string :=
  if String.eqb url "" then Some "empty url" else None.

Definition client_Do (url body user password : string)
  : string + (Z * string) :=
  if (String.eqb user "your-client-id"
      && String.eqb password "your-client-secret")%bool
  then inr (http.StatusOK, "t0k3n")
  else inr (http.StatusUnauthorized, "").

Definition json_Decode (body : string) : string + middleware.OAuth2TokenResponse :=
  inr (middleware.mkOAuth2TokenResponse body "Bearer" 3600).

#[export] Instance endpoint : middleware.TokenEndpoint :=
  middleware.Build_TokenEndpoint http_NewRequest client_Do json_Decode.

Definition oauth2_auth (oauth2_enabled : bool) : config.AuthConfig :=
  config.mkAuthConfig true "oauth2" (config.mkJWTAuthConfig "secret")
    (config.mkOAuth2Config oauth2_enabled "https://example.com/oauth2/token"
                           "your-client-id" "your-client-secret").

Definition jwt_auth : config.AuthConfig :=
  config.mkAuthConfig true "jwt" (config.mkJWTAuthConfig "secret")
    (config.mkOAuth2Config false "" "" "").

Definition world (auth : config.AuthConfig) : World :=
  mkWorld (config.mkConfig 8000 "info" (config.mkRateLimitConfig true 5 Second)
                           auth [])
          [] [] [] http.NewResponseWriter.

End sample_oauth2.

(** * Properties *)

(** ** Machine integers *)

Lemma wrap64_small z : in_int64 z -> wrap64 z = z.
Proof.
  unfold in_int64, min_int64, max_int64, wrap64. intros Hz.
  rewrite Z.mod_small; lia.
Qed.

Lemma time_Sub_range t u : in_int64 (time_Sub t u).
Proof. unfold time_Sub, in_int64, min_int64, max_int64. lia. Qed.

(** ** The token bucket *)

Section TokenBucket.
Import ratelimiter.

Variable rate_of : Z -> Z -> Z.

Lemma New_well_formed requests interval now :
  requests <= max_int64 ->
  well_formed (NewTokenBucketLimiter rate_of requests interval now).
Proof.
  intros Hmax. unfold NewTokenBucketLimiter, well_formed, bounded.
  set (rq := if requests <=? 0 then 100 else requests).
  set (iv := if interval <=? 0 then Second else interval).
  assert (0 < rq <= max_int64)
    by (subst rq; unfold max_int64 in *; destruct (Z.leb_spec requests 0); lia).
  assert (0 < iv)
    by (subst iv; unfold Second; destruct (Z.leb_spec interval 0); lia).
  destruct (rate_of rq iv <=? 0); cbn.
  - repeat split; try lia. apply Z.quot_pos; unfold Second; lia.
  - repeat split; lia.
Qed.

Lemma New_capacity requests interval now :
  capacity (NewTokenBucketLimiter rate_of requests interval now)
  = (if requests <=? 0 then 100 else requests).
Proof.
  unfold NewTokenBucketLimiter.
  destruct (rate_of _ _ <=? 0); reflexivity.
Qed.

(** A refill that fits adds a non-negative amount without wrapping and
    caps the count at the capacity. *)
Lemma refill_well_formed l now l' :
  well_formed l -> refill_fits l now -> refill l now = Some l' ->
  well_formed l' /\ capacity l' = capacity l.
Proof.
  unfold well_formed, bounded, refill_fits, refill.
  intros (Hb & Hc & Hi & Hp) Hfit.
  pose proof (time_Sub_range now (lastRefillTime l)) as He.
  set (e := time_Sub now (lastRefillTime l)) in *.
  destruct (Z.leb_spec (refillInterval l) e) as [Hle|Hlt].
  2:{ intros [= <-]. auto. }
  destruct (Z.eqb_spec (refillInterval l) 0) as [|Hnz]; [discriminate|].
  specialize (Hfit Hle).
  assert (Hq : 0 <= Z.quot e (refillInterval l) <= e).
  { split; [apply Z.quot_pos; lia|].
    rewrite Z.quot_div_nonneg by lia.
    apply Z.div_le_upper_bound; nia. }
  assert (Hm : 0 <= Z.quot e (refillInterval l) * refillPerInterval l) by nia.
  unfold in_int64, min_int64, max_int64 in *.
  rewrite (wrap64_small (Z.quot e (refillInterval l)))
    by (unfold in_int64, min_int64, max_int64; lia).
  rewrite (wrap64_small (_ * _))
    by (unfold in_int64, min_int64, max_int64; lia).
  rewrite (wrap64_small (_ + _))
    by (unfold in_int64, min_int64, max_int64; lia).
  intros [= <-]. cbn.
  destruct (Z.ltb_spec (capacity l)
              (tokens l + Z.quot e (refillInterval l) * refillPerInterval l));
    repeat split; lia.
Qed.

Lemma Allow_well_formed l now b l' :
  well_formed l -> refill_fits l now -> Allow l now = Some (b, l') ->
  well_formed l' /\ capacity l' = capacity l.
Proof.
  intros Hwf Hfit. unfold Allow.
  destruct (refill l now) as [l1|] eqn:Hr; [|discriminate].
  destruct (refill_well_formed _ _ _ Hwf Hfit Hr) as ((Hb & Hc & Hi & Hp) & Hcap).
  unfold bounded in Hb.
  destruct (Z.ltb_spec 0 (tokens l1)); intros [= <- <-].
  - unfold well_formed, bounded. cbn.
    rewrite wrap64_small
      by (unfold in_int64, min_int64, max_int64 in *; lia).
    repeat split; lia.
  - unfold well_formed, bounded. repeat split; lia.
Qed.

Lemma reaches_well_formed l0 l :
  well_formed l0 -> reaches l0 l -> well_formed l /\ capacity l = capacity l0.
Proof.
  intros Hwf Hr. induction Hr as [|l now b l' _ IH Hfit HA].
  - auto.
  - destruct IH as [IHwf IHc].
    destruct (Allow_well_formed _ _ _ _ IHwf Hfit HA) as [? ?].
    split; [assumption|congruence].
Qed.

(** [Allow] returns whenever the refill interval is not zero (a zero
    interval is a division by zero in [refill]). *)
Lemma Allow_returns l now :
  refillInterval l <> 0 -> exists b l', Allow l now = Some (b, l').
Proof.
  intros Hnz. unfold Allow, refill.
  destruct (_ <=? _).
  - destruct (Z.eqb_spec (refillInterval l) 0); [contradiction|].
    cbv zeta. destruct (0 <? _); eauto.
  - destruct (0 <? _); eauto.
Qed.

(** The three steps of one caller, run without interruption, are
    [Allow]. *)
Lemma run_two_serial l now p2 :
  run_two now [true; true; true] l AtRefill p2
  = match Allow l now with
    | Some (b, l') => Some (l', Returned b, p2)
    | None => None
    end.
Proof.
  unfold Allow. cbn. destruct (refill l now) as [l1|]; [|reflexivity].
  cbn. destruct (0 <? tokens l1); reflexivity.
Qed.

End TokenBucket.

(** C4 (as amended).  For every limiter built by [NewTokenBucketLimiter]
    from an [int] request count, and every sequence of [Allow] calls at
    arbitrary clock readings in which no refill overflows the 64-bit
    integer (the count plus whole intervals elapsed times the refill
    quantum stays an [int64]), the token count stays within
    [0, capacity], and the capacity stays the configured request count. *)
Theorem Allow_tokens_within_capacity
  (rate_of : Z -> Z -> Z) (requests interval now0 : Z)
  (l : ratelimiter.TokenBucketLimiter) :
  requests <= max_int64 ->
  ratelimiter.reaches
    (ratelimiter.NewTokenBucketLimiter rate_of requests interval now0) l ->
  0 <= ratelimiter.tokens l <= ratelimiter.capacity l
  /\ ratelimiter.capacity l = (if requests <=? 0 then 100 else requests).
Proof.
  intros Hmax Hr.
  pose proof (New_well_formed rate_of requests interval now0 Hmax) as Hwf.
  destruct (reaches_well_formed _ _ Hwf Hr) as [(Hb & _) Hc].
  split; [exact Hb|]. rewrite Hc. apply New_capacity.
Qed.

(** Five requests per second: one call at once, the next two seconds
    later (a refill of ten tokens, capped at five, then one taken). *)
Lemma Allow_tokens_within_capacity_witness :
  let l0 := ratelimiter.NewTokenBucketLimiter ratelimiter.exact_rate 5 Second 0 in
  let l2 := ratelimiter.mkLimiter 5 4 5 Second (2 * Second) 5 in
  5 <= max_int64
  /\ ratelimiter.reaches l0 l2
  /\ (0 <= ratelimiter.tokens l2 <= ratelimiter.capacity l2
      /\ ratelimiter.capacity l2 = 5).
Proof.
  assert (Hmax : 5 <= max_int64) by (unfold max_int64; lia).
  assert (Hr : ratelimiter.reaches
                 (ratelimiter.NewTokenBucketLimiter ratelimiter.exact_rate 5 Second 0)
                 (ratelimiter.mkLimiter 5 4 5 Second (2 * Second) 5)).
  { eapply (ratelimiter.reaches_Allow _ _ (2 * Second) true).
    - eapply (ratelimiter.reaches_Allow _ _ 0 true).
      + apply ratelimiter.reaches_init.
      + intros e. vm_compute. discriminate.
      + vm_compute. reflexivity.
    - intros e. vm_compute. discriminate.
    - vm_compute. reflexivity. }
  split; [exact Hmax|]. split; [exact Hr|].
  exact (Allow_tokens_within_capacity ratelimiter.exact_rate 5 Second 0 _ Hmax Hr).
Defined.

(** C4 as stated fails: with ten thousand million requests per second
    configured and a clock reading 10^18 ns after the last refill, the
    product of intervals and quantum wraps around and the count is left
    negative. *)
Lemma Allow_refill_overflow_negative :
  exists l',
    ratelimiter.Allow
      (ratelimiter.NewTokenBucketLimiter ratelimiter.exact_rate (10 ^ 10) Second 0)
      (10 ^ 18) = Some (false, l')
    /\ ratelimiter.tokens l' < 0
    /\ ~ (0 <= ratelimiter.tokens l' <= ratelimiter.capacity l').
Proof.
  eexists. split; [vm_compute; reflexivity|]. cbn. split; lia.
Qed.

(** C5 (what the constructor does).  With positive [requests] and
    [interval] whose rate truncates to no whole token per second, the
    limiter gets a refill quantum of one token and a refill interval of one
    second divided by [requests] - not [interval / requests]. *)
Theorem NewTokenBucketLimiter_sub_second_rate
  (rate_of : Z -> Z -> Z) (requests interval now : Z) :
  0 < requests -> 0 < interval -> rate_of requests interval <= 0 ->
  let l := ratelimiter.NewTokenBucketLimiter rate_of requests interval now in
  ratelimiter.refillInterval l = Z.quot Second requests
  /\ ratelimiter.refillPerInterval l = 1
  /\ ratelimiter.refillRate l = 1
  /\ ratelimiter.capacity l = requests
  /\ ratelimiter.tokens l = requests.
Proof.
  intros Hr Hi Hrate. unfold ratelimiter.NewTokenBucketLimiter.
  destruct (Z.leb_spec requests 0); [lia|].
  destruct (Z.leb_spec interval 0); [lia|].
  destruct (Z.leb_spec (rate_of requests interval) 0); [|lia].
  cbn. auto.
Qed.

(** Five requests per ten seconds. *)
Lemma NewTokenBucketLimiter_sub_second_rate_witness :
  let l := ratelimiter.NewTokenBucketLimiter
             ratelimiter.exact_rate 5 (10 * Second) 0 in
  0 < 5 /\ 0 < 10 * Second /\ ratelimiter.exact_rate 5 (10 * Second) <= 0
  /\ (ratelimiter.refillInterval l = Z.quot Second 5
      /\ ratelimiter.refillPerInterval l = 1
      /\ ratelimiter.refillRate l = 1
      /\ ratelimiter.capacity l = 5
      /\ ratelimiter.tokens l = 5).
Proof.
  assert (H1 : 0 < 5) by lia.
  assert (H2 : 0 < 10 * Second) by (unfold Second; lia).
  assert (H3 : ratelimiter.exact_rate 5 (10 * Second) <= 0)
    by (vm_compute; discriminate).
  split; [exact H1|]. split; [exact H2|]. split; [exact H3|].
  exact (NewTokenBucketLimiter_sub_second_rate
           ratelimiter.exact_rate 5 (10 * Second) 0 H1 H2 H3).
Defined.

(** At five requests per ten seconds the limiter refills one token every
    200 ms, where [interval / requests] is two seconds: once the bucket is
    drained, a request is admitted again 200 ms later. *)
Example NewTokenBucketLimiter_five_per_ten_seconds :
  let l := ratelimiter.NewTokenBucketLimiter
             ratelimiter.exact_rate 5 (10 * Second) 0 in
  ratelimiter.refillInterval l = 200 * Millisecond
  /\ Z.quot (10 * Second) 5 = 2 * Second
  /\ (exists l',
        ratelimiter.Allows l [0; 0; 0; 0; 0; 0; 200 * Millisecond]
        = Some ([true; true; true; true; true; false; true], l')).
Proof.
  split; [reflexivity|]. split; [reflexivity|].
  eexists. vm_compute. reflexivity.
Qed.

(** C6 (what the code does).  [Allow] is not serialized: with one token
    left, the schedule in which both callers test the count before either
    decrements it admits both requests and leaves the count at -1, whereas
    one call after the other admits exactly one. *)
Theorem Allow_unsynchronized_double_admission :
  let l := ratelimiter.NewTokenBucketLimiter ratelimiter.exact_rate 1 Second 0 in
  ratelimiter.tokens l = 1
  /\ (exists l',
        ratelimiter.run_two 0 [true; false; true; false; true; false] l
          ratelimiter.AtRefill ratelimiter.AtRefill
        = Some (l', ratelimiter.Returned true, ratelimiter.Returned true)
        /\ ratelimiter.tokens l' = -1)
  /\ (exists l',
        ratelimiter.run_two 0 [true; true; true; false; false; false] l
          ratelimiter.AtRefill ratelimiter.AtRefill
        = Some (l', ratelimiter.Returned true, ratelimiter.Returned false)
        /\ ratelimiter.tokens l' = 0).
Proof.
  split; [reflexivity|].
  split; eexists; (split; [vm_compute; reflexivity|reflexivity]).
Qed.

(** ** The router: middleware composition *)

Section Composition.
Import router.
Context {H : Type}.

Lemma wrap_from_take (mws : list (H -> H)) (n : nat) (handler : H) :
  (n <= length mws)%nat ->
  wrap_from mws n handler = foldr (fun m next => m next) handler (take n mws).
Proof.
  revert handler. induction n as [|i IH]; intros handler Hn.
  - reflexivity.
  - cbn [wrap_from].
    destruct (lookup_lt_is_Some_2 mws i ltac:(lia)) as [m Hm].
    rewrite Hm, IH by lia.
    rewrite (take_S_r _ _ _ Hm), foldr_app. reflexivity.
Qed.

Lemma wrap_from_all (mws : list (H -> H)) (handler : H) :
  wrap_from mws (length mws) handler = foldr (fun m next => m next) handler mws.
Proof. rewrite wrap_from_take by lia. now rewrite firstn_all. Qed.

Lemma fold_Use (l : list (H -> H)) (r : Router H) :
  middlewares (fold_left Use l r) = middlewares r ++ l
  /\ mux (fold_left Use l r) = mux r.
Proof.
  revert r. induction l as [|m l IH]; intros r; cbn.
  - now rewrite app_nil_r.
  - destruct (IH (Use r m)) as [-> ->]. cbn. now rewrite <- app_assoc.
Qed.

End Composition.

Lemma tracing_chain (n a : nat) (t : list router.Event) :
  foldr (fun m next => m next) router.terminal
        (map router.tracing (seq a n)) t
  = t ++ map router.Enter (seq a n) ++ [router.Terminal]
      ++ map router.Leave (rev (seq a n)).
Proof.
  revert a t. induction n as [|n IH]; intros a t.
  - reflexivity.
  - cbn [seq map foldr]. unfold router.tracing at 1. rewrite IH.
    cbn [rev]. rewrite map_app. cbn [map].
    rewrite <- !app_assoc. reflexivity.
Qed.

(** C8.  [HandleFunc] registers, under the path, the terminal handler
    wrapped by the router's middlewares taken in reverse registration
    order (the last-declared is applied first, to the terminal handler):
    the result is the first-declared middleware applied to the composition
    of all the others.  On a request the first-declared
    middleware therefore runs first and finishes last: with [n]
    middlewares that record their entry and exit, the trace is entries
    0 .. n-1, the terminal handler, exits n-1 .. 0. *)
Theorem HandleFunc_first_declared_outermost :
  (forall (H : Type) (r : router.Router H) (path : string) (handler : H),
      router.mux (router.HandleFunc r path handler)
      = router.mux r
          ++ [(path, foldr (fun m next => m next) handler (router.middlewares r))]
      /\ router.middlewares (router.HandleFunc r path handler)
         = router.middlewares r)
  /\ (forall (H : Type) (mws : list (H -> H)) (handler : H),
        router.wrap_from mws (length mws) handler
        = fold_left (fun next m => m next) (rev mws) handler)
  /\ (forall (H : Type) (m : H -> H) (ms : list (H -> H)) (handler : H),
        router.wrap_from (m :: ms) (length (m :: ms)) handler
        = m (router.wrap_from ms (length ms) handler))
  /\ (forall n : nat,
        exists composed,
          router.mux (router.HandleFunc (router.traced n) "/" router.terminal)
          = [("/", composed)]
          /\ composed []
             = map router.Enter (seq 0 n) ++ [router.Terminal]
                 ++ map router.Leave (rev (seq 0 n))).
Proof.
  split; [|split; [|split]].
  - intros H r path handler. unfold router.HandleFunc. cbn.
    now rewrite wrap_from_all.
  - intros H mws handler. rewrite wrap_from_all.
    rewrite <- (rev_involutive mws) at 1. apply fold_left_rev_right.
  - intros H m ms handler. now rewrite !wrap_from_all.
  - intros n. eexists. unfold router.HandleFunc, router.traced.
    destruct (fold_Use (map router.tracing (seq 0 n))
                (@router.NewRouter (list router.Event -> list router.Event)))
      as [Hm Hx].
    rewrite Hx, Hm. cbn [router.NewRouter router.mux router.middlewares app].
    split; [reflexivity|].
    rewrite length_map, length_seq.
    rewrite wrap_from_take by (rewrite length_map, length_seq; lia).
    rewrite firstn_all2 by (rewrite length_map, length_seq; lia).
    rewrite tracing_chain. reflexivity.
Qed.

(** ** Authentication *)

(** C9.  When authentication is enabled and the lower-cased type is not
    "jwt", [AuthMiddleware] calls the inner handler with the request
    unchanged and nothing written to the response (no 401): for "oauth2"
    and "none" on the very same state, for any other type after one
    warning has been logged. *)
Theorem AuthMiddleware_non_jwt_fails_open `{Collaborators}
  (getAuthConfig : World -> config.AuthConfig) (next : Handler)
  (r : http.Request) (w : World) :
  config.Enabled (getAuthConfig w) = true ->
  strings_ToLower (config.Type_ (getAuthConfig w)) <> "jwt" ->
  exists w',
    middleware.AuthMiddleware getAuthConfig next r w = next r w'
    /\ rw w' = rw w
    /\ currentCfg w' = currentCfg w
    /\ objects w' = objects w
    /\ sent w' = sent w
    /\ logs w'
       = logs w
           ++ (let authType := strings_ToLower (config.Type_ (getAuthConfig w)) in
               if (String.eqb authType "oauth2" || String.eqb authType "none")%bool
               then []
               else [zap.mkEntry zap.WarnLevel "未知的认证类型，跳过认证"
                                 [("auth_type", authType)]]).
Proof.
  intros Hen Hty. unfold middleware.AuthMiddleware.
  rewrite Hen. cbn [negb].
  destruct (String.eqb_spec (strings_ToLower (config.Type_ (getAuthConfig w))) "jwt")
    as [Heq|_]; [contradiction|].
  destruct (String.eqb (strings_ToLower (config.Type_ (getAuthConfig w))) "oauth2").
  { exists w. cbn. rewrite app_nil_r. auto 10. }
  destruct (String.eqb (strings_ToLower (config.Type_ (getAuthConfig w))) "none").
  { exists w. cbn. rewrite app_nil_r. auto 10. }
  eexists. split; [reflexivity|]. cbn. auto 10.
Qed.

(** Authentication enabled with type "OAuth2" and an inner handler that
    answers 200. *)
Lemma AuthMiddleware_non_jwt_fails_open_witness :
  let auth := config.mkAuthConfig true "OAuth2" (config.mkJWTAuthConfig "secret")
                (config.mkOAuth2Config false "" "" "") in
  let w := mkWorld (config.mkConfig 8000 "info"
                      (config.mkRateLimitConfig false 0 0) auth [])
                   [] [] [] http.NewResponseWriter in
  let next : Handler := fun _ w => set_rw w (http.Write (rw w) "ok") in
  let r := sample.GET "/api/users" in
  config.Enabled (gateway.getAuthConfig w) = true
  /\ strings_ToLower (config.Type_ (gateway.getAuthConfig w)) <> "jwt"
  /\ exists w',
      @middleware.AuthMiddleware sample.collaborators gateway.getAuthConfig next r w = next r w'
      /\ rw w' = rw w
      /\ currentCfg w' = currentCfg w
      /\ objects w' = objects w
      /\ sent w' = sent w
      /\ logs w'
         = logs w
             ++ (let authType :=
                   strings_ToLower (config.Type_ (gateway.getAuthConfig w)) in
                 if (String.eqb authType "oauth2" || String.eqb authType "none")%bool
                 then []
                 else [zap.mkEntry zap.WarnLevel "未知的认证类型，跳过认证"
                                   [("auth_type", authType)]]).
Proof.
  intros auth w next r.
  assert (H1 : config.Enabled (gateway.getAuthConfig w) = true) by reflexivity.
  assert (H2 : strings_ToLower (config.Type_ (gateway.getAuthConfig w)) <> "jwt")
    by (vm_compute; discriminate).
  split; [exact H1|]. split; [exact H2|].
  exact (@AuthMiddleware_non_jwt_fails_open sample.collaborators
           gateway.getAuthConfig next r w H1 H2).
Defined.

(** With the type "jwt" and no Authorization header the same middleware
    answers 401 without calling the inner handler. *)
Example AuthMiddleware_jwt_rejects :
  let auth := config.mkAuthConfig true "JWT" (config.mkJWTAuthConfig "secret")
                (config.mkOAuth2Config false "" "" "") in
  let w := mkWorld (config.mkConfig 8000 "info"
                      (config.mkRateLimitConfig false 0 0) auth [])
                   [] [] [] http.NewResponseWriter in
  let next : Handler := fun _ w => set_rw w (http.Write (rw w) "ok") in
  http.rwStatus
    (rw (@middleware.AuthMiddleware sample.collaborators gateway.getAuthConfig next
           (sample.GET "/api/users") w))
  = Some http.StatusUnauthorized.
Proof. vm_compute. reflexivity. Qed.

(** ** The terminal handler and the proxy cache *)

Lemma ReverseProxy_ServeHTTP_objects `{Collaborators} p req w :
  objects (ReverseProxy_ServeHTTP p req w) = objects w.
Proof.
  unfold ReverseProxy_ServeHTTP.
  destruct (objects w !! p); [|reflexivity]. cbn.
  destruct (RoundTrip _); cbn; [|reflexivity].
  destruct (httputil.ErrorHandler _ _ _ _ _). reflexivity.
Qed.

Lemma set_fields_objects p d e w :
  objects (handler.set_ErrorHandler p e (handler.set_Director p d w))
  = match objects w !! p with
    | Some _ => <[p := httputil.mkReverseProxy d e]> (objects w)
    | None => objects w
    end.
Proof.
  unfold handler.set_ErrorHandler, handler.set_Director. cbn.
  destruct (objects w !! p) as [obj|] eqn:Hobj.
  - apply list_eq. intros i. destruct (decide (i = p)) as [->|Hne].
    + rewrite !list_lookup_alter_eq, Hobj. cbn.
      rewrite list_lookup_insert_eq by (eapply lookup_lt_Some; eauto).
      reflexivity.
    + rewrite !list_lookup_alter_ne by congruence.
      rewrite list_lookup_insert_ne by congruence. reflexivity.
  - apply list_eq. intros i. destruct (decide (i = p)) as [->|Hne].
    + rewrite !list_lookup_alter_eq, Hobj. reflexivity.
    + rewrite !list_lookup_alter_ne by congruence. reflexivity.
Qed.

(** C10.  Serving a request through the handler returned by
    [ProxyHandler] assigns the [Director] and [ErrorHandler] fields of the
    cached proxy it was given, and does so before forwarding: the request
    handed to the transport is the one rewritten by the handler's own
    director, and afterwards the proxy at that address holds the handler's
    two closures, whatever it held before, every other proxy being
    untouched.  The closures differ from the ones [GetProxy] installs,
    which are thus replaced. *)
Theorem ProxyHandler_overwrites_proxy_fields `{Collaborators}
  (p : nat) (targetURL : string) (timeout : Z) (r : http.Request) (w : World)
  (obj : httputil.ReverseProxy) :
  objects w !! p = Some obj ->
  objects (handler.ProxyHandler p targetURL timeout r w)
  = <[p := httputil.mkReverseProxy (handler.director targetURL)
                                   (handler.errorHandler targetURL)]> (objects w)
  /\ objects (handler.ProxyHandler p targetURL timeout r w) !! p
     = Some (httputil.mkReverseProxy (handler.director targetURL)
                                     (handler.errorHandler targetURL))
  /\ sent (handler.ProxyHandler p targetURL timeout r w)
     = sent w ++ [handler.director targetURL (http.WithTimeout r timeout)]
  /\ (forall u, handler.director targetURL <> proxy.director u)
  /\ handler.errorHandler targetURL <> proxy.errorHandler.
Proof.
  intros Hobj.
  pose proof (set_fields_objects p (handler.director targetURL)
                (handler.errorHandler targetURL) w) as Hset.
  rewrite Hobj in Hset.
  assert (Hp : (p < length (objects w))%nat) by (eapply lookup_lt_Some; eauto).
  unfold handler.ProxyHandler. cbn zeta.
  split; [|split; [|split; [|split]]].
  - now rewrite ReverseProxy_ServeHTTP_objects.
  - rewrite ReverseProxy_ServeHTTP_objects, Hset.
    now apply list_lookup_insert_eq.
  - unfold ReverseProxy_ServeHTTP. rewrite Hset.
    rewrite list_lookup_insert_eq by exact Hp. cbn.
    destruct (RoundTrip _); cbn; reflexivity.
  - intros u Heq.
    apply (f_equal (fun d => http.Header (d (sample.GET "/")))) in Heq.
    cbn in Heq. discriminate.
  - intros Heq.
    apply (f_equal (fun e => http.rwBody
                               (e http.NewResponseWriter (sample.GET "/") "" []).1))
      in Heq.
    vm_compute in Heq. discriminate.
Qed.

(** A request served through a proxy that [GetProxy] has just created. *)
Lemma ProxyHandler_overwrites_proxy_fields_witness :
  let u := url.mkURL "http" "10.0.0.5:9000" "" in
  let obj := httputil.mkReverseProxy (proxy.director u) proxy.errorHandler in
  let w := mkWorld (sample.cfg []) [obj] [] [] http.NewResponseWriter in
  let r := sample.GET "/api/users" in
  let w' := @handler.ProxyHandler sample.collaborators 0 "http://10.0.0.5:9000"
              (5 * Second) r w in
  objects w !! 0%nat = Some obj
  /\ (objects w'
      = <[0%nat := httputil.mkReverseProxy
                     (handler.director "http://10.0.0.5:9000")
                     (handler.errorHandler "http://10.0.0.5:9000")]> (objects w)
      /\ objects w' !! 0%nat
         = Some (httputil.mkReverseProxy
                   (handler.director "http://10.0.0.5:9000")
                   (handler.errorHandler "http://10.0.0.5:9000"))
      /\ sent w'
         = sent w ++ [handler.director "http://10.0.0.5:9000"
                        (http.WithTimeout r (5 * Second))]
      /\ (forall u, handler.director "http://10.0.0.5:9000" <> proxy.director u)
      /\ handler.errorHandler "http://10.0.0.5:9000" <> proxy.errorHandler).
Proof.
  intros u obj w r w'.
  assert (H0 : objects w !! 0%nat = Some obj) by reflexivity.
  split; [exact H0|].
  exact (@ProxyHandler_overwrites_proxy_fields sample.collaborators 0
           "http://10.0.0.5:9000" (5 * Second) r w obj H0).
Defined.

Section Cache.
Import proxy.
Context `{Collaborators}.

Lemma GetProxy_hit rp s w p :
  proxies rp !! s = Some p -> GetProxy rp s w = (inr p, rp, w).
Proof. intros Hp. unfold GetProxy. now rewrite Hp. Qed.

Lemma GetProxy_cached rp s w p rp' w' :
  GetProxy rp s w = (inr p, rp', w') -> proxies rp' !! s = Some p.
Proof.
  unfold GetProxy. destruct (proxies rp !! s) as [q|] eqn:Hq.
  - intros [= <- <- <-]. exact Hq.
  - destruct (url_Parse s); intros [= <- <- <-]. cbn.
    apply lookup_insert_eq.
Qed.

(** A target the URL parser rejects yields the error and constructs
    nothing, at every call. *)
Lemma GetProxy_malformed rp s w e :
  proxies rp !! s = None -> url_Parse s = inl e ->
  GetProxy rp s w = (inl e, rp, w).
Proof. intros Hp He. unfold GetProxy. now rewrite Hp, He. Qed.

(** An entry, once cached, is never changed or dropped. *)
Lemma GetProxy_keeps rp s w res rp' w' s0 p0 :
  GetProxy rp s w = (res, rp', w') ->
  proxies rp !! s0 = Some p0 -> proxies rp' !! s0 = Some p0.
Proof.
  unfold GetProxy. destruct (proxies rp !! s) as [q|] eqn:Hq.
  - intros [= <- <- <-]. auto.
  - destruct (url_Parse s); intros [= <- <- <-]; [auto|]. cbn.
    intros Hs0. rewrite lookup_insert_ne; [exact Hs0|congruence].
Qed.

(** A call constructs one proxy on a miss with a well-formed target, and
    none otherwise. *)
Lemma GetProxy_constructs rp s w res rp' w' :
  GetProxy rp s w = (res, rp', w') ->
  length (objects w')
  = (length (objects w)
     + match proxies rp !! s, res with
       | None, inr _ => 1
       | _, _ => 0
       end)%nat.
Proof.
  unfold GetProxy. destruct (proxies rp !! s) as [q|] eqn:Hq.
  - intros [= <- <- <-]. lia.
  - destruct (url_Parse s); intros [= <- <- <-]; cbn; [lia|].
    rewrite length_app. cbn. lia.
Qed.

Lemma GetProxy_consistent rp s w res rp' w' :
  consistent rp w -> GetProxy rp s w = (res, rp', w') -> consistent rp' w'.
Proof.
  intros (Hlt & Hinj & Hsz). unfold GetProxy.
  destruct (proxies rp !! s) as [q|] eqn:Hq.
  { intros [= <- <- <-]. repeat split; assumption. }
  destruct (url_Parse s); intros [= <- <- <-].
  { repeat split; assumption. }
  unfold consistent. cbn. rewrite length_app. cbn.
  split; [|split].
  - intros s0 p0. rewrite lookup_insert. case_decide.
    + intros [= <-]. lia.
    + intros Hs0. apply Hlt in Hs0. lia.
  - intros s0 s1 p0. rewrite !lookup_insert.
    repeat case_decide; subst.
    + reflexivity.
    + intros [= <-] Hs1. apply Hlt in Hs1. lia.
    + intros Hs0 [= <-]. apply Hlt in Hs0. lia.
    + apply Hinj.
  - rewrite map_size_insert_None by exact Hq. lia.
Qed.

Lemma calls_consistent st st' :
  calls st st' -> consistent st.1 st.2 -> consistent st'.1 st'.2.
Proof.
  induction 1 as [st|rp w s res rp' w' st HG _ IH|rp w w' st Hlen _ IH];
    cbn in *; intros Hc.
  - exact Hc.
  - apply IH. eapply GetProxy_consistent; eauto.
  - apply IH. destruct Hc as (Hlt & Hinj & Hsz).
    repeat split; [intros s p Hp; rewrite Hlen; eauto|exact Hinj|congruence].
Qed.

Lemma calls_keep st st' s0 p0 :
  calls st st' -> proxies st.1 !! s0 = Some p0 -> proxies st'.1 !! s0 = Some p0.
Proof.
  induction 1 as [st|rp w s res rp' w' st HG _ IH|rp w w' st Hlen _ IH];
    cbn in *; intros Hp.
  - exact Hp.
  - apply IH. eapply GetProxy_keeps; eauto.
  - apply IH. exact Hp.
Qed.

Lemma consistent_empty w : objects w = [] -> consistent NewReverseProxy w.
Proof.
  intros Hw. unfold consistent, NewReverseProxy. cbn. rewrite Hw.
  repeat split.
  - intros s p. rewrite lookup_empty. discriminate.
  - intros s s' p. rewrite lookup_empty. discriminate.
Qed.

End Cache.

(** C7.  Starting from the empty cache, take any history of [GetProxy]
    calls and served requests, then a call for the target [s] that returns
    the proxy at address [p], then any further history.  A later call for
    [s] returns the same [p] and leaves the cache and the proxies as they
    are; the first of the calls constructed exactly one proxy if [s] was
    not cached yet and none otherwise; and throughout there are exactly as
    many proxies as cached targets, no two targets sharing one. *)
Theorem GetProxy_one_proxy_per_target `{Collaborators}
  (w0 : World) (rp : proxy.ReverseProxy) (w : World) (s : string) (p : nat)
  (rp1 : proxy.ReverseProxy) (w1 : World)
  (rp2 : proxy.ReverseProxy) (w2 : World) :
  objects w0 = [] ->
  proxy.calls (proxy.NewReverseProxy, w0) (rp, w) ->
  proxy.GetProxy rp s w = (inr p, rp1, w1) ->
  proxy.calls (rp1, w1) (rp2, w2) ->
  proxy.GetProxy rp2 s w2 = (inr p, rp2, w2)
  /\ length (objects w1)
     = (length (objects w)
        + match proxy.proxies rp !! s with None => 1 | Some _ => 0 end)%nat
  /\ proxy.consistent rp1 w1
  /\ proxy.consistent rp2 w2.
Proof.
  intros Hw0 Hpre Hget Hpost.
  pose proof (calls_consistent _ _ Hpre (consistent_empty w0 Hw0)) as Hc.
  cbn in Hc.
  pose proof (GetProxy_consistent _ _ _ _ _ _ Hc Hget) as Hc1.
  pose proof (calls_consistent _ _ Hpost Hc1) as Hc2. cbn in Hc2.
  split; [|split; [|split; assumption]].
  - apply GetProxy_hit.
    apply (calls_keep _ _ s p Hpost). cbn.
    eapply GetProxy_cached; eauto.
  - rewrite (GetProxy_constructs _ _ _ _ _ _ Hget).
    destruct (proxy.proxies rp !! s); reflexivity.
Qed.

(** Two targets requested one after the other on the empty cache. *)
Lemma GetProxy_one_proxy_per_target_witness :
  let w0 := mkWorld (sample.cfg []) [] [] [] http.NewResponseWriter in
  let s := "http://10.0.0.5:9000" in
  let X := @proxy.GetProxy sample.collaborators proxy.NewReverseProxy s w0 in
  let Y := @proxy.GetProxy sample.collaborators X.1.2 "http://10.0.0.6:9000" X.2 in
  objects w0 = []
  /\ @proxy.calls sample.collaborators (proxy.NewReverseProxy, w0)
       (proxy.NewReverseProxy, w0)
  /\ @proxy.GetProxy sample.collaborators proxy.NewReverseProxy s w0
     = (inr 0%nat, X.1.2, X.2)
  /\ @proxy.calls sample.collaborators (X.1.2, X.2) (Y.1.2, Y.2)
  /\ (@proxy.GetProxy sample.collaborators Y.1.2 s Y.2 = (inr 0%nat, Y.1.2, Y.2)
      /\ length (objects X.2)
         = (length (objects w0)
            + match proxy.proxies proxy.NewReverseProxy !! s with
              | None => 1
              | Some _ => 0
              end)%nat
      /\ proxy.consistent X.1.2 X.2
      /\ proxy.consistent Y.1.2 Y.2).
Proof.
  intros w0 s X Y.
  assert (H0 : objects w0 = []) by reflexivity.
  assert (H1 : @proxy.calls sample.collaborators (proxy.NewReverseProxy, w0)
                 (proxy.NewReverseProxy, w0)) by apply proxy.calls_done.
  assert (H2 : @proxy.GetProxy sample.collaborators proxy.NewReverseProxy s w0
               = (inr 0%nat, X.1.2, X.2)) by reflexivity.
  assert (H3 : @proxy.calls sample.collaborators (X.1.2, X.2) (Y.1.2, Y.2)).
  { eapply (proxy.calls_GetProxy _ _ "http://10.0.0.6:9000" Y.1.1).
    - reflexivity.
    - apply proxy.calls_done. }
  split; [exact H0|]. split; [exact H1|]. split; [exact H2|]. split; [exact H3|].
  exact (@GetProxy_one_proxy_per_target sample.collaborators
           w0 proxy.NewReverseProxy w0 s 0%nat X.1.2 X.2 Y.1.2 Y.2 H0 H1 H2 H3).
Defined.

(** ** Route loading and serving *)

Lemma copy_headers_keeps (hs : http.Headers) (x : http.ResponseWriter) :
  let x' := fold_left (fun x kv => http.set_rwHeader x kv.1 kv.2) hs x in
  http.rwStatus x' = http.rwStatus x /\ http.rwBody x' = http.rwBody x.
Proof.
  revert x. induction hs as [|kv hs IH]; intros x; cbn.
  - auto.
  - destruct (IH (http.set_rwHeader x kv.1 kv.2)) as [-> ->]. auto.
Qed.

(** Loading the single discovered route on a fresh gateway: one proxy is
    created for the target string and the route handler closes over that
    string. *)
Lemma loadRoutes_users_route `{Collaborators} (u : url.URL) :
  url_Parse "http://10.0.0.5:9000" = inr u ->
  exists timeout l,
    gateway.loadRoutes (Some sample.discovery)
      (gateway.start (sample.cfg [sample.users_route]))
    = gateway.mkGateway
        (router.mkRouter
           [("/api/users",
             middleware.AuthMiddleware gateway.getAuthConfig
               (handler.ProxyHandler 0 "http://10.0.0.5:9000" timeout))]
           [middleware.AuthMiddleware gateway.getAuthConfig])
        (proxy.mkReverseProxy {["http://10.0.0.5:9000" := 0%nat]})
        (mkWorld (sample.cfg [sample.users_route])
           [httputil.mkReverseProxy (proxy.director u) proxy.errorHandler]
           l [] http.NewResponseWriter).
Proof.
  intros Hparse.
  unfold gateway.loadRoutes, gateway.start.
  cbn -[time_ParseDuration url_Parse].
  unfold gateway.register_route.
  cbn -[time_ParseDuration url_Parse proxy.GetProxy].
  change ("http://" +:+ "10.0.0.5" +:+ ":" +:+ "9000")
    with "http://10.0.0.5:9000".
  cbn -[time_ParseDuration url_Parse proxy.GetProxy].
  unfold proxy.GetProxy. cbn -[time_ParseDuration url_Parse].
  rewrite lookup_empty, Hparse.
  destruct (time_ParseDuration "5s") as [d|]; cbn; do 2 eexists; reflexivity.
Qed.

(** C1 (what the code does).  Route /api/users names the service
    user-service and discovery returns the instance 10.0.0.5:9000.  After
    [loadRoutes] the path is registered, and a request to /api/users is
    handed to the transport with the original path but with the whole
    target string "http://10.0.0.5:9000" as its host - not the host
    "10.0.0.5:9000" of the resolved target.  The client receives what the
    transport makes of that request: the backend's status and body, or 502
    when the transport fails. *)
Theorem ProxyHandler_forwards_to_target_string_as_host `{Collaborators}
  (u : url.URL) :
  url_Parse "http://10.0.0.5:9000" = inr u ->
  let g1 := gateway.loadRoutes (Some sample.discovery)
              (gateway.start (sample.cfg [sample.users_route])) in
  let g2 := gateway.ServeHTTP g1 (sample.GET "/api/users") in
  gateway.paths g1 = ["/api/users"]
  /\ exists outreq,
      sent (gateway.world g2) = [outreq]
      /\ http.URL outreq = url.mkURL "http" "http://10.0.0.5:9000" "/api/users"
      /\ http.Host outreq = "http://10.0.0.5:9000"
      /\ http.URL outreq <> url.mkURL "http" "10.0.0.5:9000" "/api/users"
      /\ http.rwStatus (rw (gateway.world g2))
         = Some match RoundTrip outreq with
                | inl _ => http.StatusBadGateway
                | inr res => http.StatusCode res
                end
      /\ http.rwBody (rw (gateway.world g2))
         = match RoundTrip outreq with
           | inl _ => "后端服务不可用"
           | inr res => http.Body res
           end.
Proof.
  intros Hparse.
  destruct (loadRoutes_users_route u Hparse) as (timeout & l & ->).
  cbn zeta. split; [reflexivity|].
  unfold gateway.ServeHTTP. cbn -[RoundTrip].
  unfold middleware.AuthMiddleware. cbn -[RoundTrip].
  unfold handler.ProxyHandler, ReverseProxy_ServeHTTP. cbn -[RoundTrip].
  exists (handler.director "http://10.0.0.5:9000"
            (http.WithTimeout (sample.GET "/api/users") timeout)).
  destruct (RoundTrip _) as [err|res]; cbn.
  - repeat split; discriminate.
  - destruct (copy_headers_keeps (http.respHeader res) http.NewResponseWriter)
      as [Hs Hb].
    cbn zeta in Hs, Hb. unfold http.WriteHeader. rewrite Hs, Hb. cbn.
    repeat split; discriminate.
Qed.

(** With the sample collaborators, whose transport reaches the backend at
    host 10.0.0.5:9000 only. *)
Lemma ProxyHandler_forwards_to_target_string_as_host_witness :
  let u := url.mkURL "http" "10.0.0.5:9000" "" in
  let g1 := @gateway.loadRoutes sample.collaborators (Some sample.discovery)
              (@gateway.start sample.collaborators
                 (sample.cfg [sample.users_route])) in
  let g2 := gateway.ServeHTTP g1 (sample.GET "/api/users") in
  sample.url_Parse "http://10.0.0.5:9000" = inr u
  /\ (gateway.paths g1 = ["/api/users"]
      /\ exists outreq,
          sent (gateway.world g2) = [outreq]
          /\ http.URL outreq
             = url.mkURL "http" "http://10.0.0.5:9000" "/api/users"
          /\ http.Host outreq = "http://10.0.0.5:9000"
          /\ http.URL outreq <> url.mkURL "http" "10.0.0.5:9000" "/api/users"
          /\ http.rwStatus (rw (gateway.world g2))
             = Some match sample.RoundTrip outreq with
                    | inl _ => http.StatusBadGateway
                    | inr res => http.StatusCode res
                    end
          /\ http.rwBody (rw (gateway.world g2))
             = match sample.RoundTrip outreq with
               | inl _ => "后端服务不可用"
               | inr res => http.Body res
               end).
Proof.
  intros u g1 g2.
  assert (H0 : sample.url_Parse "http://10.0.0.5:9000" = inr u)
    by (vm_compute; reflexivity).
  split; [exact H0|].
  exact (@ProxyHandler_forwards_to_target_string_as_host
           sample.collaborators u H0).
Defined.

(** On the sample collaborators the client of /api/users receives 502,
    while the backend answers 200 to a request for the URL the route
    resolves to. *)
Example users_request_answered_502 :
  let g1 := @gateway.loadRoutes sample.collaborators (Some sample.discovery)
              (@gateway.start sample.collaborators
                 (sample.cfg [sample.users_route])) in
  let g2 := gateway.ServeHTTP g1 (sample.GET "/api/users") in
  http.rwStatus (rw (gateway.world g2)) = Some http.StatusBadGateway
  /\ (exists res,
        sample.RoundTrip
          (http.set_URL (sample.GET "/api/users")
             (url.mkURL "http" "10.0.0.5:9000" "/api/users")) = inr res
        /\ http.StatusCode res = http.StatusOK).
Proof.
  split; [vm_compute; reflexivity|].
  eexists. split; [vm_compute; reflexivity|reflexivity].
Qed.

(** ** Hot reload *)

Section Reload.
Import gateway.
Context `{Collaborators}.

Lemma log_set_currentCfg lvl m fs w c :
  log lvl m fs (set_currentCfg w c) = set_currentCfg (log lvl m fs w) c.
Proof. reflexivity. Qed.

Lemma GetProxy_set_currentCfg rp t w c :
  proxy.GetProxy rp t (set_currentCfg w c)
  = let '(res, rp', w') := proxy.GetProxy rp t w in
    (res, rp', set_currentCfg w' c).
Proof.
  unfold proxy.GetProxy.
  destruct (proxy.proxies rp !! t); [reflexivity|].
  destruct (url_Parse t); reflexivity.
Qed.

(** Route registration never reads the configuration: it commutes with
    swapping it. *)
Lemma register_route_updateConfig sd route c g :
  register_route sd route (updateConfig c g)
  = updateConfig c (register_route sd route g).
Proof.
  unfold register_route, updateConfig.
  destruct g as [rt rp w]. cbn -[proxy.GetProxy log set_currentCfg].
  destruct sd as [sd|];
    [destruct (String.eqb (config.ServiceName route) "");
     [|destruct (sd (config.ServiceName route)) as [err|[|inst insts]]]|];
    cbn -[proxy.GetProxy log set_currentCfg]; try reflexivity;
    (destruct (String.eqb _ ""); [reflexivity|];
     destruct (time_ParseDuration (config.Timeout route));
     rewrite ?log_set_currentCfg, GetProxy_set_currentCfg;
     destruct (proxy.GetProxy rp _ _) as [[[e|q] rp'] w2]; reflexivity).
Qed.

Lemma register_routes_updateConfig sd routes c g :
  register_routes sd routes (updateConfig c g)
  = updateConfig c (register_routes sd routes g).
Proof.
  revert g. induction routes as [|route routes IH]; intros g; cbn.
  - reflexivity.
  - now rewrite register_route_updateConfig, IH.
Qed.

(** The router [loadRoutes] leaves is the one the loop builds on the
    cleared router, whatever else the configuration holds. *)
Lemma loadRoutes_with_Routes sd routes g :
  r (loadRoutes sd
       (updateConfig (config.with_Routes (currentCfg (world g)) routes) g))
  = r (register_routes sd routes (clear g)).
Proof.
  unfold loadRoutes. cbn.
  change (clear (updateConfig ?c g)) with (updateConfig c (clear g)).
  now rewrite register_routes_updateConfig.
Qed.

Lemma updateConfig_same g : updateConfig (currentCfg (world g)) g = g.
Proof. destruct g as [rt rp [c o l s x]]. reflexivity. Qed.

(** The loop leaves the configuration alone. *)
Lemma register_routes_currentCfg sd routes g :
  currentCfg (world (register_routes sd routes g)) = currentCfg (world g).
Proof.
  rewrite <- (updateConfig_same g) at 1.
  now rewrite register_routes_updateConfig.
Qed.

(** Every state the loop passes through is the result of the loop on a
    prefix of the route list. *)
Lemma register_routes_states_prefix sd routes g :
  Forall (fun g' => exists k, g' = register_routes sd (take k routes) g)
         (register_routes_states sd routes g).
Proof.
  revert g. induction routes as [|route routes IH]; intros g; cbn.
  - constructor.
  - constructor.
    + exists 1%nat. cbn. now rewrite take_0.
    + eapply Forall_impl; [apply IH|].
      intros g' [k ->]. exists (S k). reflexivity.
Qed.

Lemma register_routes_states_last sd routes g :
  last (g :: register_routes_states sd routes g)
  = Some (register_routes sd routes g).
Proof.
  revert g. induction routes as [|route routes IH]; intros g.
  - reflexivity.
  - cbn [register_routes_states register_routes].
    rewrite last_cons_cons. apply IH.
Qed.

End Reload.

(** C2 (as amended).  While [loadRoutes] rebuilds the table, the states a
    reader can meet are, in order: the gateway before the call (the
    complete old table), and then only states whose table is the complete
    table of a prefix of the new configuration's route list - empty right
    after [ClearRoutes], one route longer after each iteration - all of
    them under the configuration the rebuild reads.  The last of them is
    the state on return, with the table of the whole list. *)
Theorem loadRoutes_states_prefix_tables `{Collaborators}
  (sd : option consul.ServiceDiscovery) (g : gateway.Gateway) :
  let cfg := currentCfg (gateway.world g) in
  let states := gateway.loadRoutes_states sd g in
  head states = Some g
  /\ last states = Some (gateway.loadRoutes sd g)
  /\ Forall
       (fun g' =>
          currentCfg (gateway.world g') = cfg
          /\ exists k,
              gateway.r g'
              = gateway.r
                  (gateway.loadRoutes sd
                     (gateway.updateConfig
                        (config.with_Routes cfg (take k (config.Routes cfg))) g)))
       (tail states).
Proof.
  cbn zeta. unfold gateway.loadRoutes_states.
  split; [reflexivity|]. split.
  - rewrite !last_cons. rewrite last_snoc. reflexivity.
  - cbn [tail]. constructor; [|apply Forall_app; split].
    + split; [reflexivity|].
      exists 0%nat. now rewrite loadRoutes_with_Routes, take_0.
    + eapply Forall_impl; [apply register_routes_states_prefix|].
      intros g' [k ->]. split.
      * now rewrite register_routes_currentCfg.
      * exists k. now rewrite loadRoutes_with_Routes.
    + constructor; [|constructor]. split.
      * unfold gateway.loadRoutes. cbn.
        now rewrite register_routes_currentCfg.
      * exists (length (config.Routes (currentCfg (gateway.world g)))).
        rewrite loadRoutes_with_Routes, firstn_all. reflexivity.
Qed.

(** C2 as stated fails.  The gateway serves /api/users and /api/orders; a
    reload with the same two routes passes through a state whose table
    holds /api/users alone - neither the old table nor the new one - and a
    request for /api/orders served then is answered 404. *)
Lemma loadRoutes_partial_table_observable :
  let g := @gateway.loadRoutes sample.collaborators None
             (@gateway.start sample.collaborators
                (sample.cfg [sample.static_users; sample.static_orders])) in
  let g_new := @gateway.loadRoutes sample.collaborators None g in
  exists g',
    @gateway.loadRoutes_states sample.collaborators None g !! 2%nat = Some g'
    /\ gateway.paths g = ["/api/users"; "/api/orders"]
    /\ gateway.paths g_new = ["/api/users"; "/api/orders"]
    /\ gateway.paths g' = ["/api/users"]
    /\ http.rwStatus
         (rw (gateway.world (gateway.ServeHTTP g' (sample.GET "/api/orders"))))
       = Some http.StatusNotFound
    /\ ~ (gateway.paths g' = gateway.paths g
          \/ gateway.paths g' = gateway.paths g_new).
Proof.
  eexists. split; [reflexivity|].
  split; [vm_compute; reflexivity|].
  split; [vm_compute; reflexivity|].
  split; [vm_compute; reflexivity|].
  split; [vm_compute; reflexivity|].
  vm_compute. intros [Hc|Hc]; discriminate Hc.
Qed.

(** C3.  When loading the new configuration fails, the event handler
    leaves the active configuration, the router with its route table, the
    proxy cache and the proxies exactly as they were; it only appends the
    change notice and the error to the log. *)
Theorem on_event_parse_failure_keeps_state `{Collaborators}
  (op : Z) (name err : string) (sd : option consul.ServiceDiscovery)
  (g : gateway.Gateway) :
  let g' := gateway.on_event op name (inl err) sd g in
  currentCfg (gateway.world g') = currentCfg (gateway.world g)
  /\ gateway.r g' = gateway.r g
  /\ gateway.reverseProxy g' = gateway.reverseProxy g
  /\ objects (gateway.world g') = objects (gateway.world g)
  /\ sent (gateway.world g') = sent (gateway.world g)
  /\ rw (gateway.world g') = rw (gateway.world g)
  /\ logs (gateway.world g')
     = logs (gateway.world g)
         ++ (if gateway.is_change op
             then [zap.mkEntry zap.InfoLevel "配置文件发生变化，重新加载配置"
                               [("file", name)];
                   zap.mkEntry zap.ErrorLevel "重新加载配置失败"
                               [("error", err)]]
             else []).
Proof.
  unfold gateway.on_event. destruct (gateway.is_change op); cbn.
  - rewrite <- app_assoc. auto 10.
  - rewrite app_nil_r. auto 10.
Qed.

(** A successful load, by contrast, swaps the configuration and rebuilds
    the table from it. *)
Example on_event_reload_swaps :
  let g := @gateway.loadRoutes sample.collaborators None
             (@gateway.start sample.collaborators
                (sample.cfg [sample.static_users])) in
  let newCfg := sample.cfg [sample.static_orders] in
  let g' := @gateway.on_event sample.collaborators fsnotify.Write
              "./config/config.yaml" (inr newCfg) None g in
  gateway.paths g = ["/api/users"]
  /\ gateway.paths g' = ["/api/orders"]
  /\ currentCfg (gateway.world g') = newCfg.
Proof.
  split; [vm_compute; reflexivity|]. split; vm_compute; reflexivity.
Qed.

(** Two routes configured with the same target are served through one
    cached proxy: after loading there are two routes and a single proxy,
    whose fields hold the closures of whichever route served last. *)
Example routes_share_cached_proxy :
  let shared := config.mkRouteConfig "/api/v2/users" "http://localhost:8081"
                                     "" "10s" in
  let g := @gateway.loadRoutes sample.collaborators None
             (@gateway.start sample.collaborators
                (sample.cfg [sample.static_users; shared])) in
  let g' := gateway.ServeHTTP g (sample.GET "/api/v2/users") in
  gateway.paths g = ["/api/users"; "/api/v2/users"]
  /\ length (objects (gateway.world g)) = 1%nat
  /\ (httputil.Director <$> objects (gateway.world g) !! 0%nat)
     = Some (proxy.director (url.mkURL "http" "localhost:8081" ""))
  /\ (httputil.Director <$> objects (gateway.world g') !! 0%nat)
     = Some (handler.director "http://localhost:8081").
Proof.
  split; [vm_compute; reflexivity|]. split; [vm_compute; reflexivity|].
  split; reflexivity.
Qed.

(** * Further properties of the code *)

(** ** The token bucket between refills *)

Lemma set_tokens_same (l : ratelimiter.TokenBucketLimiter) :
  ratelimiter.set_tokens l (ratelimiter.tokens l) = l.
Proof. destruct l. reflexivity. Qed.

(** Before a whole refill interval has elapsed, [Allow] only tests and
    decrements. *)
Lemma Allow_no_refill (l : ratelimiter.TokenBucketLimiter) (now : Z) :
  time_Sub now (ratelimiter.lastRefillTime l) < ratelimiter.refillInterval l ->
  ratelimiter.Allow l now
  = if 0 <? ratelimiter.tokens l
    then Some (true, ratelimiter.set_tokens l (wrap64 (ratelimiter.tokens l - 1)))
    else Some (false, l).
Proof.
  intros Hlt. unfold ratelimiter.Allow, ratelimiter.refill.
  destruct (Z.leb_spec (ratelimiter.refillInterval l)
              (time_Sub now (ratelimiter.lastRefillTime l))); [lia|].
  reflexivity.
Qed.

(** X1.  Calls made before a whole refill interval has elapsed since the
    last refill draw on the tokens at hand only: with [n] tokens in the
    bucket, the first [n] of them are admitted, every later one is denied,
    and the count ends at [n] minus the admitted calls - never below
    zero. *)
Theorem Allows_burst_admits_tokens_at_hand
  (l : ratelimiter.TokenBucketLimiter) (times : list Z) :
  0 <= ratelimiter.tokens l <= max_int64 ->
  Forall (fun now =>
            time_Sub now (ratelimiter.lastRefillTime l)
            < ratelimiter.refillInterval l) times ->
  let n := Z.to_nat (ratelimiter.tokens l) in
  let k := length times in
  ratelimiter.Allows l times
  = Some (replicate (min n k) true ++ replicate (k - n) false,
          ratelimiter.set_tokens l
            (ratelimiter.tokens l - Z.of_nat (min n k))).
Proof.
  revert l. induction times as [|now times IH]; intros l Hb Hall; cbn zeta.
  - cbn. rewrite Nat.min_0_r. cbn. rewrite Z.sub_0_r, set_tokens_same.
    reflexivity.
  - apply Forall_cons in Hall as [Hnow Hall].
    cbn [ratelimiter.Allows length]. rewrite (Allow_no_refill _ _ Hnow).
    destruct (Z.ltb_spec 0 (ratelimiter.tokens l)) as [Hpos|Hzero].
    + rewrite wrap64_small
        by (unfold in_int64, min_int64, max_int64 in *; lia).
      set (l1 := ratelimiter.set_tokens l (ratelimiter.tokens l - 1)).
      assert (Hb1 : 0 <= ratelimiter.tokens l1 <= max_int64) by (cbn; lia).
      specialize (IH l1 Hb1 Hall). cbn zeta in IH. rewrite IH.
      assert (Hn : Z.to_nat (ratelimiter.tokens l)
                   = S (Z.to_nat (ratelimiter.tokens l1))) by (cbn; lia).
      rewrite Hn. cbn [min replicate app Nat.sub].
      f_equal. f_equal. unfold ratelimiter.set_tokens. cbn. f_equal. lia.
    + assert (Hz : ratelimiter.tokens l = 0) by lia.
      specialize (IH l Hb Hall). cbn zeta in IH. rewrite IH.
      rewrite Hz. cbn. rewrite Nat.sub_0_r. reflexivity.
Qed.

(** Five tokens, seven calls within the first second. *)
Lemma Allows_burst_admits_tokens_at_hand_witness :
  let l := ratelimiter.NewTokenBucketLimiter ratelimiter.exact_rate 5 Second 0 in
  let times := [0; 1; 2; 3; 4; 5; 999999999] in
  0 <= ratelimiter.tokens l <= max_int64
  /\ Forall (fun now =>
               time_Sub now (ratelimiter.lastRefillTime l)
               < ratelimiter.refillInterval l) times
  /\ ratelimiter.Allows l times
     = Some (replicate (min (Z.to_nat (ratelimiter.tokens l)) (length times)) true
               ++ replicate (length times - Z.to_nat (ratelimiter.tokens l)) false,
             ratelimiter.set_tokens l
               (ratelimiter.tokens l
                - Z.of_nat (min (Z.to_nat (ratelimiter.tokens l)) (length times)))).
Proof.
  intros l times.
  assert (H1 : 0 <= ratelimiter.tokens l <= max_int64)
    by (vm_compute; split; discriminate).
  assert (H2 : Forall (fun now =>
                         time_Sub now (ratelimiter.lastRefillTime l)
                         < ratelimiter.refillInterval l) times)
    by (repeat constructor; vm_compute; reflexivity).
  split; [exact H1|]. split; [exact H2|].
  exact (Allows_burst_admits_tokens_at_hand l times H1 H2).
Defined.

(** X2.  Once at least one refill interval has elapsed (and the refill
    does not overflow), a call on a limiter of positive capacity is
    admitted whatever the count was: the bucket is refilled by the whole
    intervals elapsed times the quantum, capped at the capacity, one token
    is taken, and the refill time becomes the time of the call. *)
Theorem Allow_after_interval_admits
  (l : ratelimiter.TokenBucketLimiter) (now : Z) :
  ratelimiter.well_formed l ->
  0 < ratelimiter.capacity l ->
  0 < ratelimiter.refillInterval l ->
  ratelimiter.refillInterval l <= time_Sub now (ratelimiter.lastRefillTime l) ->
  ratelimiter.refill_fits l now ->
  exists l',
    ratelimiter.Allow l now = Some (true, l')
    /\ ratelimiter.tokens l'
       = Z.min (ratelimiter.capacity l)
               (ratelimiter.tokens l
                + Z.quot (time_Sub now (ratelimiter.lastRefillTime l))
                         (ratelimiter.refillInterval l)
                  * ratelimiter.refillPerInterval l) - 1
    /\ ratelimiter.lastRefillTime l' = now
    /\ ratelimiter.capacity l' = ratelimiter.capacity l.
Proof.
  intros ((Hb0 & Hb1) & Hc & _ & Hp) Hcap Hi Hle Hfit.
  unfold ratelimiter.refill_fits in Hfit. specialize (Hfit Hle).
  pose proof (time_Sub_range now (ratelimiter.lastRefillTime l)) as He.
  set (e := time_Sub now (ratelimiter.lastRefillTime l)) in *.
  assert (Hq : 1 <= Z.quot e (ratelimiter.refillInterval l) <= e).
  { rewrite Z.quot_div_nonneg by lia. split.
    - apply Z.div_le_lower_bound; lia.
    - apply Z.div_le_upper_bound; nia. }
  assert (Hm : 1 <= Z.quot e (ratelimiter.refillInterval l)
                    * ratelimiter.refillPerInterval l) by nia.
  unfold ratelimiter.Allow, ratelimiter.refill. fold e.
  destruct (Z.leb_spec (ratelimiter.refillInterval l) e); [|lia].
  destruct (Z.eqb_spec (ratelimiter.refillInterval l) 0); [lia|].
  unfold in_int64, min_int64, max_int64 in *.
  rewrite (wrap64_small (Z.quot e (ratelimiter.refillInterval l)))
    by (unfold in_int64, min_int64, max_int64; lia).
  rewrite (wrap64_small (_ * _))
    by (unfold in_int64, min_int64, max_int64; lia).
  rewrite (wrap64_small (_ + _))
    by (unfold in_int64, min_int64, max_int64; lia).
  cbn.
  destruct (Z.ltb_spec (ratelimiter.capacity l)
              (ratelimiter.tokens l
               + Z.quot e (ratelimiter.refillInterval l)
                 * ratelimiter.refillPerInterval l)) as [Hover|Hunder].
  - destruct (Z.ltb_spec 0 (ratelimiter.capacity l)); [|lia].
    eexists. split; [reflexivity|]. cbn.
    rewrite wrap64_small by (unfold in_int64, min_int64, max_int64; lia).
    repeat split; lia.
  - destruct (Z.ltb_spec 0 (ratelimiter.tokens l
                            + Z.quot e (ratelimiter.refillInterval l)
                              * ratelimiter.refillPerInterval l)); [|lia].
    eexists. split; [reflexivity|]. cbn.
    rewrite wrap64_small by (unfold in_int64, min_int64, max_int64; lia).
    repeat split; lia.
Qed.

(** A drained bucket of five per second, called again after 2.5 s. *)
Lemma Allow_after_interval_admits_witness :
  let l := ratelimiter.mkLimiter 5 0 5 Second 0 5 in
  let now := 2500 * Millisecond in
  ratelimiter.well_formed l
  /\ 0 < ratelimiter.capacity l
  /\ 0 < ratelimiter.refillInterval l
  /\ ratelimiter.refillInterval l <= time_Sub now (ratelimiter.lastRefillTime l)
  /\ ratelimiter.refill_fits l now
  /\ exists l',
      ratelimiter.Allow l now = Some (true, l')
      /\ ratelimiter.tokens l'
         = Z.min (ratelimiter.capacity l)
                 (ratelimiter.tokens l
                  + Z.quot (time_Sub now (ratelimiter.lastRefillTime l))
                           (ratelimiter.refillInterval l)
                    * ratelimiter.refillPerInterval l) - 1
      /\ ratelimiter.lastRefillTime l' = now
      /\ ratelimiter.capacity l' = ratelimiter.capacity l.
Proof.
  intros l now.
  assert (H1 : ratelimiter.well_formed l)
    by (vm_compute; repeat split; discriminate).
  assert (H2 : 0 < ratelimiter.capacity l) by reflexivity.
  assert (H3 : 0 < ratelimiter.refillInterval l) by reflexivity.
  assert (H4 : ratelimiter.refillInterval l
               <= time_Sub now (ratelimiter.lastRefillTime l))
    by (vm_compute; discriminate).
  assert (H5 : ratelimiter.refill_fits l now)
    by (intros _; vm_compute; discriminate).
  split; [exact H1|]. split; [exact H2|]. split; [exact H3|].
  split; [exact H4|]. split; [exact H5|].
  exact (Allow_after_interval_admits l now H1 H2 H3 H4 H5).
Defined.

(** ** The refill interval and the division in [refill] *)

Lemma Allow_keeps_refillInterval (l : ratelimiter.TokenBucketLimiter)
  (now : Z) (b : bool) (l' : ratelimiter.TokenBucketLimiter) :
  ratelimiter.Allow l now = Some (b, l') ->
  ratelimiter.refillInterval l' = ratelimiter.refillInterval l.
Proof.
  unfold ratelimiter.Allow, ratelimiter.refill.
  destruct (_ <=? _).
  - destruct (_ =? _); [discriminate|]. cbv zeta.
    destruct (0 <? _); intros [= <- <-]; reflexivity.
  - destruct (0 <? _); intros [= <- <-]; reflexivity.
Qed.

Lemma Allows_returns (l : ratelimiter.TokenBucketLimiter) (times : list Z) :
  ratelimiter.refillInterval l <> 0 ->
  exists res, ratelimiter.Allows l times = Some res.
Proof.
  revert l. induction times as [|now times IH]; intros l Hnz; cbn.
  - eauto.
  - destruct (Allow_returns l now Hnz) as (b & l' & HA). rewrite HA.
    destruct (IH l') as [[bs l''] Hres].
    + rewrite (Allow_keeps_refillInterval _ _ _ _ HA). exact Hnz.
    + rewrite Hres. eauto.
Qed.

Lemma Allows_length (l : ratelimiter.TokenBucketLimiter) (times : list Z)
  (answers : list bool) (l' : ratelimiter.TokenBucketLimiter) :
  ratelimiter.Allows l times = Some (answers, l') ->
  length answers = length times.
Proof.
  revert l answers l'.
  induction times as [|now times IH]; intros l answers l'; cbn.
  - intros [= <- _]. reflexivity.
  - destruct (ratelimiter.Allow l now) as [[b l1]|]; [|discriminate].
    destruct (ratelimiter.Allows l1 times) as [[bs l2]|] eqn:Hrec;
      [|discriminate].
    intros [= <- _]. cbn. f_equal. eapply IH. exact Hrec.
Qed.

(** X3.  A limiter configured with at most 10^9 requests per interval has
    a refill interval of at least one nanosecond, so no sequence of
    [Allow] calls, at any clock readings, runs into the division by zero
    of [refill]: every call returns. *)
Theorem Allows_returns_up_to_1e9_requests
  (rate_of : Z -> Z -> Z) (requests interval now0 : Z) (times : list Z) :
  requests <= 10 ^ 9 ->
  0 < ratelimiter.refillInterval
        (ratelimiter.NewTokenBucketLimiter rate_of requests interval now0)
  /\ exists answers l',
      ratelimiter.Allows
        (ratelimiter.NewTokenBucketLimiter rate_of requests interval now0) times
      = Some (answers, l')
      /\ length answers = length times.
Proof.
  intros Hreq.
  assert (Hpos : 0 < ratelimiter.refillInterval
                   (ratelimiter.NewTokenBucketLimiter rate_of requests interval now0)).
  { unfold ratelimiter.NewTokenBucketLimiter.
    set (rq := if requests <=? 0 then 100 else requests).
    set (iv := if interval <=? 0 then Second else interval).
    assert (0 < rq <= 10 ^ 9)
      by (subst rq; destruct (Z.leb_spec requests 0); lia).
    assert (0 < iv)
      by (subst iv; unfold Second; destruct (Z.leb_spec interval 0); lia).
    destruct (rate_of rq iv <=? 0); cbn; [|lia].
    assert (1 <= Z.quot Second rq); [|lia].
    apply Z.quot_le_lower_bound; unfold Second; lia. }
  split; [exact Hpos|].
  destruct (Allows_returns
              (ratelimiter.NewTokenBucketLimiter rate_of requests interval now0)
              times ltac:(lia)) as [[answers l'] Hres].
  exists answers, l'. split; [exact Hres|].
  eapply Allows_length; eauto.
Qed.

(** The sample configuration: a thousand requests per second. *)
Lemma Allows_returns_up_to_1e9_requests_witness :
  let l := ratelimiter.NewTokenBucketLimiter ratelimiter.exact_rate
             1000 Second 0 in
  1000 <= 10 ^ 9
  /\ (0 < ratelimiter.refillInterval l
      /\ exists answers l',
          ratelimiter.Allows l [0; Second; 5 * Second] = Some (answers, l')
          /\ length answers = length [0; Second; 5 * Second]).
Proof.
  assert (H1 : 1000 <= 10 ^ 9) by lia.
  split; [exact H1|].
  exact (Allows_returns_up_to_1e9_requests ratelimiter.exact_rate
           1000 Second 0 [0; Second; 5 * Second] H1).
Defined.

(** X4.  With more than 10^9 requests configured over an interval so long
    that the rate truncates to no whole token per second, the constructor
    sets the refill interval to [time.Second / requests = 0]; every
    [Allow] at or after the creation time then divides by zero in
    [refill] and panics. *)
Theorem Allow_panics_on_zero_interval
  (rate_of : Z -> Z -> Z) (requests interval now0 now : Z) :
  10 ^ 9 < requests -> 0 < interval -> rate_of requests interval <= 0 ->
  now0 <= now ->
  ratelimiter.refillInterval
    (ratelimiter.NewTokenBucketLimiter rate_of requests interval now0) = 0
  /\ ratelimiter.Allow
       (ratelimiter.NewTokenBucketLimiter rate_of requests interval now0) now
     = None.
Proof.
  intros Hreq Hint Hrate Hnow.
  unfold ratelimiter.NewTokenBucketLimiter.
  destruct (Z.leb_spec requests 0); [lia|].
  destruct (Z.leb_spec interval 0); [lia|].
  destruct (Z.leb_spec (rate_of requests interval) 0); [|lia].
  assert (Hq : Z.quot Second requests = 0)
    by (apply Z.quot_small; unfold Second; lia).
  cbn. rewrite Hq. split; [reflexivity|].
  unfold ratelimiter.Allow, ratelimiter.refill. cbn.
  assert (0 <= time_Sub now now0)
    by (unfold time_Sub, min_int64, max_int64; lia).
  destruct (Z.leb_spec 0 (time_Sub now now0)); [reflexivity|lia].
Qed.

(** Two thousand million requests per 3 * 10^9 seconds. *)
Lemma Allow_panics_on_zero_interval_witness :
  let requests := 2 * 10 ^ 9 in
  let interval := 3 * 10 ^ 9 * Second in
  10 ^ 9 < requests /\ 0 < interval
  /\ ratelimiter.exact_rate requests interval <= 0
  /\ 0 <= 1
  /\ (ratelimiter.refillInterval
        (ratelimiter.NewTokenBucketLimiter ratelimiter.exact_rate
           requests interval 0) = 0
      /\ ratelimiter.Allow
           (ratelimiter.NewTokenBucketLimiter ratelimiter.exact_rate
              requests interval 0) 1
         = None).
Proof.
  intros requests interval.
  assert (H1 : 10 ^ 9 < requests) by (vm_compute; reflexivity).
  assert (H2 : 0 < interval) by (vm_compute; reflexivity).
  assert (H3 : ratelimiter.exact_rate requests interval <= 0)
    by (vm_compute; discriminate).
  assert (H4 : 0 <= 1) by lia.
  split; [exact H1|]. split; [exact H2|]. split; [exact H3|].
  split; [exact H4|].
  exact (Allow_panics_on_zero_interval ratelimiter.exact_rate
           requests interval 0 1 H1 H2 H3 H4).
Defined.

(** ** The rate-limiting middleware *)

Lemma too_many_fold_sent (reqs : list (http.Request * Z)) (w : World) :
  let w' := fold_left (fun w q => middleware.too_many q.1 w) reqs w in
  sent w' = sent w /\ objects w' = objects w /\ currentCfg w' = currentCfg w.
Proof.
  revert w. induction reqs as [|q reqs IH]; intros w; cbn.
  - auto.
  - destruct (IH (middleware.too_many q.1 w)) as (-> & -> & ->). auto.
Qed.

(** X5.  Requests that arrive before a refill interval has elapsed pass
    the rate-limiting middleware while tokens last: with [n] tokens in the
    bucket the first [n] requests reach the inner handler, and each later
    one is answered by the 429 branch without the inner handler being
    run - nothing is handed to a backend for it. *)
Theorem RateLimiter_excess_requests_denied
  (l : ratelimiter.TokenBucketLimiter) (next : Handler)
  (reqs : list (http.Request * Z)) (w : World) :
  0 <= ratelimiter.tokens l <= max_int64 ->
  Forall (fun q =>
            time_Sub q.2 (ratelimiter.lastRefillTime l)
            < ratelimiter.refillInterval l) reqs ->
  let n := Z.to_nat (ratelimiter.tokens l) in
  let admitted := fold_left (fun w q => next q.1 w) (take n reqs) w in
  let final := fold_left (fun w q => middleware.too_many q.1 w)
                         (drop n reqs) admitted in
  middleware.RateLimiter_serve_all (Some l) next reqs w
  = Some (Some (ratelimiter.set_tokens l
                  (ratelimiter.tokens l - Z.of_nat (min n (length reqs)))),
          final)
  /\ sent final = sent admitted.
Proof.
  intros Hb Hall. cbn zeta. split; [|apply too_many_fold_sent].
  revert l w Hb Hall. induction reqs as [|[r now] reqs IH]; intros l w Hb Hall.
  - cbn. rewrite Nat.min_0_r, take_nil, drop_nil. cbn.
    rewrite Z.sub_0_r, set_tokens_same. reflexivity.
  - apply Forall_cons in Hall as [Hnow Hall]. cbn in Hnow.
    cbn [middleware.RateLimiter_serve_all middleware.RateLimiter_ServeHTTP length].
    rewrite (Allow_no_refill _ _ Hnow).
    destruct (Z.ltb_spec 0 (ratelimiter.tokens l)) as [Hpos|Hzero].
    + rewrite wrap64_small
        by (unfold in_int64, min_int64, max_int64 in *; lia).
      set (l1 := ratelimiter.set_tokens l (ratelimiter.tokens l - 1)).
      assert (Hb1 : 0 <= ratelimiter.tokens l1 <= max_int64) by (cbn; lia).
      rewrite (IH l1 (next r w) Hb1 Hall).
      assert (Hn : Z.to_nat (ratelimiter.tokens l)
                   = S (Z.to_nat (ratelimiter.tokens l1))) by (cbn; lia).
      rewrite Hn. cbn [min take drop fold_left fst].
      f_equal. f_equal. f_equal.
      unfold ratelimiter.set_tokens. cbn. f_equal. lia.
    + assert (Hz : ratelimiter.tokens l = 0) by lia.
      rewrite (IH l (middleware.too_many r w) Hb Hall).
      rewrite Hz. cbn. rewrite Z.sub_0_r. reflexivity.
Qed.

(** Two tokens, three requests at once, in front of a handler that answers
    200. *)
Lemma RateLimiter_excess_requests_denied_witness :
  let l := ratelimiter.NewTokenBucketLimiter ratelimiter.exact_rate 2 Second 0 in
  let next : Handler := fun _ w => set_rw w (http.Write (rw w) "ok") in
  let reqs := [(sample.GET "/a", 0); (sample.GET "/b", 0); (sample.GET "/c", 1)] in
  let w := sample_oauth2.world sample.no_auth in
  let n := Z.to_nat (ratelimiter.tokens l) in
  let admitted := fold_left (fun w q => next q.1 w) (take n reqs) w in
  let final := fold_left (fun w q => middleware.too_many q.1 w)
                         (drop n reqs) admitted in
  0 <= ratelimiter.tokens l <= max_int64
  /\ Forall (fun q =>
               time_Sub q.2 (ratelimiter.lastRefillTime l)
               < ratelimiter.refillInterval l) reqs
  /\ (middleware.RateLimiter_serve_all (Some l) next reqs w
      = Some (Some (ratelimiter.set_tokens l
                      (ratelimiter.tokens l - Z.of_nat (min n (length reqs)))),
              final)
      /\ sent final = sent admitted).
Proof.
  intros l next reqs w n admitted final.
  assert (H1 : 0 <= ratelimiter.tokens l <= max_int64)
    by (vm_compute; split; discriminate).
  assert (H2 : Forall (fun q =>
                         time_Sub q.2 (ratelimiter.lastRefillTime l)
                         < ratelimiter.refillInterval l) reqs)
    by (repeat constructor; vm_compute; reflexivity).
  split; [exact H1|]. split; [exact H2|].
  exact (RateLimiter_excess_requests_denied l next reqs w H1 H2).
Defined.

(** ** JWT authentication *)

Lemma substring_whole (s : string) : String.substring 0 (String.length s) s = s.
Proof. induction s as [|c s IH]; cbn; [reflexivity|]. now rewrite IH. Qed.

Lemma prefix_append (p t : string) : String.prefix p (p +:+ t) = true.
Proof.
  induction p as [|c p IH]; simpl; [now destruct t|].
  destruct (ascii_dec c c); [exact IH|congruence].
Qed.

Lemma substring_after_prefix (p t : string) :
  String.substring (String.length p)
    (String.length (p +:+ t) - String.length p) (p +:+ t) = t.
Proof.
  induction p as [|c p IH]; simpl.
  - rewrite Nat.sub_0_r. apply substring_whole.
  - exact IH.
Qed.

Lemma strings_Replace1_unfold (s old new : string) :
  strings_Replace1 s old new
  = if String.prefix old s
    then new +:+ String.substring (String.length old)
                   (String.length s - String.length old) s
    else match s with
         | EmptyString => EmptyString
         | String c s => String c (strings_Replace1 s old new)
         end.
Proof. destruct s; reflexivity. Qed.

(** A leading occurrence of [old] is the one that is removed. *)
Lemma strings_Replace1_prefix (old t : string) :
  strings_Replace1 (old +:+ t) old "" = t.
Proof.
  rewrite strings_Replace1_unfold, prefix_append, substring_after_prefix.
  reflexivity.
Qed.

Lemma Error_status (x : http.ResponseWriter) (m : string) (code : Z) :
  http.rwStatus x = None ->
  http.rwStatus (http.Error x m code) = Some code.
Proof.
  intros Hx. unfold http.Error, http.Write, http.WriteHeader, http.set_rwHeader.
  cbn. rewrite Hx. cbn. reflexivity.
Qed.

(** X6.  [jwtAuth] lets a request through only with a token that parses,
    carries map claims and is valid.  When the Authorization header is
    missing, or the token (the header without its first "Bearer ") does
    not parse to such a token, the client is answered 401, one warning is
    logged, and the inner handler is not run: the outcome is the same
    whatever the inner handler is, and nothing is sent to a backend. *)
Theorem jwtAuth_rejects_without_valid_token `{Collaborators}
  (jwtConfig : config.JWTAuthConfig) (next next' : Handler)
  (r : http.Request) (w : World) :
  http.Header_Get (http.Header r) "Authorization" = ""
  \/ (forall claims,
        jwt_Parse (config.SecretKey jwtConfig)
          (strings_Replace1 (http.Header_Get (http.Header r) "Authorization")
                            "Bearer " "")
        <> jwt.Token (Some claims) true) ->
  http.rwStatus (rw w) = None ->
  middleware.jwtAuth jwtConfig next r w = middleware.jwtAuth jwtConfig next' r w
  /\ http.rwStatus (rw (middleware.jwtAuth jwtConfig next r w))
     = Some http.StatusUnauthorized
  /\ sent (middleware.jwtAuth jwtConfig next r w) = sent w
  /\ objects (middleware.jwtAuth jwtConfig next r w) = objects w
  /\ length (logs (middleware.jwtAuth jwtConfig next r w)) = S (length (logs w)).
Proof.
  intros Hbad Hfresh. unfold middleware.jwtAuth.
  destruct (String.eqb_spec
              (http.Header_Get (http.Header r) "Authorization") "") as [He|Hne].
  - cbn -[http.Error]. rewrite Error_status by exact Hfresh.
    rewrite length_app. cbn. repeat split; lia.
  - destruct Hbad as [Hbad|Hbad]; [contradiction|].
    destruct (jwt_Parse _ _) as [e|[claims|] [|]] eqn:Hp;
      try (cbn -[http.Error]; rewrite Error_status by exact Hfresh;
           rewrite length_app; cbn; repeat split; lia).
    exfalso. exact (Hbad claims eq_refl).
Qed.

(** A request that carries a token signed with another key. *)
Lemma jwtAuth_rejects_without_valid_token_witness :
  let jwtConfig := config.mkJWTAuthConfig "secret" in
  let next : Handler := fun _ w => set_rw w (http.Write (rw w) "ok") in
  let next' : Handler := fun _ w => w in
  let r := http.set_Header (sample.GET "/api/users")
             [("Authorization", "Bearer forged")] in
  let w := sample_oauth2.world sample_oauth2.jwt_auth in
  (http.Header_Get (http.Header r) "Authorization" = ""
   \/ (forall claims,
         sample.jwt_Parse (config.SecretKey jwtConfig)
           (strings_Replace1 (http.Header_Get (http.Header r) "Authorization")
                             "Bearer " "")
         <> jwt.Token (Some claims) true))
  /\ http.rwStatus (rw w) = None
  /\ (@middleware.jwtAuth sample.collaborators jwtConfig next r w
      = @middleware.jwtAuth sample.collaborators jwtConfig next' r w
      /\ http.rwStatus (rw (@middleware.jwtAuth sample.collaborators
                              jwtConfig next r w))
         = Some http.StatusUnauthorized
      /\ sent (@middleware.jwtAuth sample.collaborators jwtConfig next r w)
         = sent w
      /\ objects (@middleware.jwtAuth sample.collaborators jwtConfig next r w)
         = objects w
      /\ length (logs (@middleware.jwtAuth sample.collaborators
                         jwtConfig next r w))
         = S (length (logs w))).
Proof.
  intros jwtConfig next next' r w.
  assert (H1 : http.Header_Get (http.Header r) "Authorization" = ""
               \/ (forall claims,
                     sample.jwt_Parse (config.SecretKey jwtConfig)
                       (strings_Replace1
                          (http.Header_Get (http.Header r) "Authorization")
                          "Bearer " "")
                     <> jwt.Token (Some claims) true))
    by (right; intros claims; vm_compute; discriminate).
  assert (H2 : http.rwStatus (rw w) = None) by reflexivity.
  split; [exact H1|]. split; [exact H2|].
  exact (@jwtAuth_rejects_without_valid_token sample.collaborators
           jwtConfig next next' r w H1 H2).
Defined.

(** X7.  A request whose Authorization header is "Bearer " followed by a
    token that parses to a valid token with claims reaches the inner
    handler, with the claims attached to its context and nothing written
    or logged on the way. *)
Theorem jwtAuth_accepts_bearer_token `{Collaborators}
  (jwtConfig : config.JWTAuthConfig) (next : Handler)
  (r : http.Request) (w : World) (token : string)
  (claims : list (string * string)) :
  http.Header_Get (http.Header r) "Authorization" = "Bearer " +:+ token ->
  jwt_Parse (config.SecretKey jwtConfig) token = jwt.Token (Some claims) true ->
  middleware.jwtAuth jwtConfig next r w = next (http.WithClaims r claims) w
  /\ http.ctx_claims (http.WithClaims r claims) = Some claims
  /\ http.Header (http.WithClaims r claims) = http.Header r
  /\ http.URL (http.WithClaims r claims) = http.URL r.
Proof.
  intros Hh Hp. unfold middleware.jwtAuth. rewrite Hh.
  change (String.eqb ("Bearer " +:+ token) "") with false. cbv iota.
  cbv zeta. rewrite strings_Replace1_prefix, Hp. auto.
Qed.

(** The sample verifier accepts the token equal to the secret. *)
Lemma jwtAuth_accepts_bearer_token_witness :
  let jwtConfig := config.mkJWTAuthConfig "secret" in
  let next : Handler := fun _ w => set_rw w (http.Write (rw w) "ok") in
  let r := http.set_Header (sample.GET "/api/users")
             [("Authorization", "Bearer secret")] in
  let w := sample_oauth2.world sample_oauth2.jwt_auth in
  let claims := [("sub", "user")] in
  http.Header_Get (http.Header r) "Authorization" = "Bearer " +:+ "secret"
  /\ sample.jwt_Parse (config.SecretKey jwtConfig) "secret"
     = jwt.Token (Some claims) true
  /\ (@middleware.jwtAuth sample.collaborators jwtConfig next r w
      = next (http.WithClaims r claims) w
      /\ http.ctx_claims (http.WithClaims r claims) = Some claims
      /\ http.Header (http.WithClaims r claims) = http.Header r
      /\ http.URL (http.WithClaims r claims) = http.URL r).
Proof.
  intros jwtConfig next r w claims.
  assert (H1 : http.Header_Get (http.Header r) "Authorization"
               = "Bearer " +:+ "secret") by reflexivity.
  assert (H2 : sample.jwt_Parse (config.SecretKey jwtConfig) "secret"
               = jwt.Token (Some claims) true) by reflexivity.
  split; [exact H1|]. split; [exact H2|].
  exact (@jwtAuth_accepts_bearer_token sample.collaborators
           jwtConfig next r w "secret" claims H1 H2).
Defined.

(** ** OAuth 2.0 client credentials *)

Lemma Header_Get_Set (h : http.Headers) (key value : string) :
  http.Header_Get (http.Header_Set h key value) key = value.
Proof.
  induction h as [|[k v] h IH]; cbn.
  - now rewrite String.eqb_refl.
  - destruct (String.eqb k key) eqn:Hk; cbn; rewrite Hk; [reflexivity|exact IH].
Qed.


(** [fetchOAuth2Token] never writes to the client, and changes nothing
    when it fails. *)
Lemma fetchOAuth2Token_state `{middleware.TokenEndpoint}
  (tokenEndpoint clientID clientSecret : string) (w : World) :
  match middleware.fetchOAuth2Token tokenEndpoint clientID clientSecret w with
  | (inr _, w') => rw w' = rw w
  | (inl _, w') => w' = w
  end.
Proof.
  unfold middleware.fetchOAuth2Token.
  destruct (middleware.http_NewRequest "POST" tokenEndpoint); [reflexivity|].
  destruct (middleware.client_Do _ _ _ _) as [err|[status body]]; [reflexivity|].
  destruct (negb (status =? http.StatusOK)); [reflexivity|].
  destruct (middleware.json_Decode body); [reflexivity|].
  destruct (String.eqb _ ""); reflexivity.
Qed.

(** X8.  [fetchOAuth2Token] returns a token only when the request could be
    built, the endpoint answered 200, the body decoded, and the decoded
    access token is not empty; it then logs one debug entry.  Every other
    outcome is an error and leaves the state as it was. *)
Theorem fetchOAuth2Token_token_only_from_200 `{middleware.TokenEndpoint}
  (tokenEndpoint clientID clientSecret : string) (w : World) :
  match middleware.fetchOAuth2Token tokenEndpoint clientID clientSecret w with
  | (inr token, w') =>
      middleware.AccessToken token <> ""
      /\ middleware.http_NewRequest "POST" tokenEndpoint = None
      /\ (exists body,
            middleware.client_Do tokenEndpoint "grant_type=client_credentials"
                                 clientID clientSecret
            = inr (http.StatusOK, body)
            /\ middleware.json_Decode body = inr token)
      /\ rw w' = rw w /\ sent w' = sent w /\ objects w' = objects w
      /\ length (logs w') = S (length (logs w))
  | (inl _, w') => w' = w
  end.
Proof.
  unfold middleware.fetchOAuth2Token.
  destruct (middleware.http_NewRequest "POST" tokenEndpoint); [reflexivity|].
  destruct (middleware.client_Do _ _ _ _) as [err|[status body]]; [reflexivity|].
  destruct (Z.eqb_spec status http.StatusOK) as [->|Hne]; cbn [negb];
    [|reflexivity].
  destruct (middleware.json_Decode body) as [err|tokenResp] eqn:Hd;
    [reflexivity|].
  destruct (String.eqb_spec (middleware.AccessToken tokenResp) "") as [He|Hne];
    [reflexivity|].
  cbn. rewrite length_app. cbn. repeat split; eauto; lia.
Qed.

Section OAuth2Properties.
Context `{Collaborators} `{middleware.TokenEndpoint}.

(** X9.  When OAuth 2.0 is switched on (authentication enabled, type
    "oauth2" in any letter case, oauth2 enabled) and the token fetch
    succeeds, the request reaches the inner handler with its
    Authorization header replaced by "Bearer " and the fetched access
    token - whatever credentials the client sent - and with method and URL
    unchanged. *)
Theorem OAuth2Middleware_replaces_Authorization
  (getAuthConfig : World -> config.AuthConfig) (next : Handler)
  (r : http.Request) (w : World)
  (token : middleware.OAuth2TokenResponse) (w1 : World) :
  config.Enabled (getAuthConfig w) = true ->
  strings_ToLower (config.Type_ (getAuthConfig w)) = "oauth2" ->
  config.oaEnabled (config.OAuth2 (getAuthConfig w)) = true ->
  middleware.fetchOAuth2Token
    (config.TokenEndpoint (config.OAuth2 (getAuthConfig w)))
    (config.ClientID (config.OAuth2 (getAuthConfig w)))
    (config.ClientSecret (config.OAuth2 (getAuthConfig w))) w
  = (inr token, w1) ->
  exists r',
    middleware.OAuth2Middleware getAuthConfig next r w = next r' w1
    /\ http.Header_Get (http.Header r') "Authorization"
       = "Bearer " +:+ middleware.AccessToken token
    /\ http.Method r' = http.Method r
    /\ http.URL r' = http.URL r
    /\ rw w1 = rw w.
Proof.
  intros Hen Hty Hoa Hfetch. unfold middleware.OAuth2Middleware.
  rewrite Hen, Hty, Hoa, Hfetch. cbn.
  eexists. split; [reflexivity|]. cbn. rewrite Header_Get_Set.
  pose proof (fetchOAuth2Token_state
                (config.TokenEndpoint (config.OAuth2 (getAuthConfig w)))
                (config.ClientID (config.OAuth2 (getAuthConfig w)))
                (config.ClientSecret (config.OAuth2 (getAuthConfig w))) w) as Hinv.
  rewrite Hfetch in Hinv. auto.
Qed.

(** X10.  When OAuth 2.0 is switched on and the token fetch fails, the
    client is answered 401 and the inner handler is not run, whatever the
    request carries. *)
Theorem OAuth2Middleware_fetch_failure_401
  (getAuthConfig : World -> config.AuthConfig) (next next' : Handler)
  (r : http.Request) (w : World) (err : string) (w1 : World) :
  config.Enabled (getAuthConfig w) = true ->
  strings_ToLower (config.Type_ (getAuthConfig w)) = "oauth2" ->
  config.oaEnabled (config.OAuth2 (getAuthConfig w)) = true ->
  middleware.fetchOAuth2Token
    (config.TokenEndpoint (config.OAuth2 (getAuthConfig w)))
    (config.ClientID (config.OAuth2 (getAuthConfig w)))
    (config.ClientSecret (config.OAuth2 (getAuthConfig w))) w
  = (inl err, w1) ->
  http.rwStatus (rw w) = None ->
  middleware.OAuth2Middleware getAuthConfig next r w
  = middleware.OAuth2Middleware getAuthConfig next' r w
  /\ http.rwStatus (rw (middleware.OAuth2Middleware getAuthConfig next r w))
     = Some http.StatusUnauthorized
  /\ sent (middleware.OAuth2Middleware getAuthConfig next r w) = sent w.
Proof.
  intros Hen Hty Hoa Hfetch Hfresh. unfold middleware.OAuth2Middleware.
  rewrite Hen, Hty, Hoa, Hfetch. cbn -[http.Error].
  pose proof (fetchOAuth2Token_state
                (config.TokenEndpoint (config.OAuth2 (getAuthConfig w)))
                (config.ClientID (config.OAuth2 (getAuthConfig w)))
                (config.ClientSecret (config.OAuth2 (getAuthConfig w))) w) as Hinv.
  rewrite Hfetch in Hinv. subst w1.
  rewrite Error_status by exact Hfresh. auto.
Qed.

(** X11.  With authentication enabled and the type "oauth2" while the
    oauth2 section itself is disabled, neither authentication middleware
    checks anything: the chain of [AuthMiddleware] around
    [OAuth2Middleware] hands every request, unchanged, to the inner
    handler on the unchanged state. *)
Theorem auth_chain_open_when_oauth2_section_disabled
  (getAuthConfig : World -> config.AuthConfig) (next : Handler)
  (r : http.Request) (w : World) :
  config.Enabled (getAuthConfig w) = true ->
  strings_ToLower (config.Type_ (getAuthConfig w)) = "oauth2" ->
  config.oaEnabled (config.OAuth2 (getAuthConfig w)) = false ->
  middleware.AuthMiddleware getAuthConfig
    (middleware.OAuth2Middleware getAuthConfig next) r w
  = next r w.
Proof.
  intros Hen Hty Hoa.
  unfold middleware.AuthMiddleware, middleware.OAuth2Middleware.
  rewrite Hen, Hty, Hoa. reflexivity.
Qed.

(** X12.  With the type "jwt" (in any letter case) the OAuth 2.0
    middleware is transparent: the chain of the two authentication
    middlewares behaves exactly as [jwtAuth] with the configured key
    placed directly around the inner handler. *)
Theorem auth_chain_is_jwtAuth_for_jwt
  (getAuthConfig : World -> config.AuthConfig) (next : Handler)
  (r : http.Request) (w : World) :
  config.Enabled (getAuthConfig w) = true ->
  strings_ToLower (config.Type_ (getAuthConfig w)) = "jwt" ->
  middleware.AuthMiddleware getAuthConfig
    (middleware.OAuth2Middleware getAuthConfig next) r w
  = middleware.jwtAuth (config.JWT (getAuthConfig w)) next r w.
Proof.
  intros Hen Hty.
  unfold middleware.AuthMiddleware. rewrite Hen, Hty. cbn.
  unfold middleware.jwtAuth.
  destruct (String.eqb _ ""); [reflexivity|].
  destruct (jwt_Parse _ _) as [e|[claims|] [|]]; try reflexivity.
  unfold middleware.OAuth2Middleware. rewrite Hen, Hty. reflexivity.
Qed.

End OAuth2Properties.

(** The sample endpoint grants a token to the configured client; the
    client's own Authorization header is replaced. *)
Lemma OAuth2Middleware_replaces_Authorization_witness :
  let w := sample_oauth2.world (sample_oauth2.oauth2_auth true) in
  let next : Handler := fun _ w => set_rw w (http.Write (rw w) "ok") in
  let r := http.set_Header (sample.GET "/api/users")
             [("Authorization", "Bearer client-own")] in
  let token := middleware.mkOAuth2TokenResponse "t0k3n" "Bearer" 3600 in
  let fetched :=
    @middleware.fetchOAuth2Token sample_oauth2.endpoint
      (config.TokenEndpoint (config.OAuth2 (gateway.getAuthConfig w)))
      (config.ClientID (config.OAuth2 (gateway.getAuthConfig w)))
      (config.ClientSecret (config.OAuth2 (gateway.getAuthConfig w))) w in
  config.Enabled (gateway.getAuthConfig w) = true
  /\ strings_ToLower (config.Type_ (gateway.getAuthConfig w)) = "oauth2"
  /\ config.oaEnabled (config.OAuth2 (gateway.getAuthConfig w)) = true
  /\ fetched = (inr token, fetched.2)
  /\ exists r',
      @middleware.OAuth2Middleware sample_oauth2.endpoint
        gateway.getAuthConfig next r w = next r' fetched.2
      /\ http.Header_Get (http.Header r') "Authorization"
         = "Bearer " +:+ middleware.AccessToken token
      /\ http.Method r' = http.Method r
      /\ http.URL r' = http.URL r
      /\ rw fetched.2 = rw w.
Proof.
  intros w next r token fetched.
  assert (H1 : config.Enabled (gateway.getAuthConfig w) = true) by reflexivity.
  assert (H2 : strings_ToLower (config.Type_ (gateway.getAuthConfig w))
               = "oauth2") by reflexivity.
  assert (H3 : config.oaEnabled (config.OAuth2 (gateway.getAuthConfig w)) = true)
    by reflexivity.
  assert (H4 : fetched = (inr token, fetched.2)) by reflexivity.
  split; [exact H1|]. split; [exact H2|]. split; [exact H3|].
  split; [exact H4|].
  exact (@OAuth2Middleware_replaces_Authorization sample_oauth2.endpoint
           gateway.getAuthConfig next r w token fetched.2 H1 H2 H3 H4).
Defined.

(** A gateway configured with a wrong client secret: the endpoint answers
    401 to the fetch, and so does the gateway to its client. *)
Lemma OAuth2Middleware_fetch_failure_401_witness :
  let auth := config.mkAuthConfig true "OAuth2" (config.mkJWTAuthConfig "secret")
                (config.mkOAuth2Config true "https://example.com/oauth2/token"
                                       "your-client-id" "wrong") in
  let w := sample_oauth2.world auth in
  let next : Handler := fun _ w => set_rw w (http.Write (rw w) "ok") in
  let next' : Handler := fun _ w => w in
  let r := sample.GET "/api/users" in
  let err := "OAuth 2.0 Token 请求失败，状态码: 401" in
  config.Enabled (gateway.getAuthConfig w) = true
  /\ strings_ToLower (config.Type_ (gateway.getAuthConfig w)) = "oauth2"
  /\ config.oaEnabled (config.OAuth2 (gateway.getAuthConfig w)) = true
  /\ @middleware.fetchOAuth2Token sample_oauth2.endpoint
       (config.TokenEndpoint (config.OAuth2 (gateway.getAuthConfig w)))
       (config.ClientID (config.OAuth2 (gateway.getAuthConfig w)))
       (config.ClientSecret (config.OAuth2 (gateway.getAuthConfig w))) w
     = (inl err, w)
  /\ http.rwStatus (rw w) = None
  /\ (@middleware.OAuth2Middleware sample_oauth2.endpoint
        gateway.getAuthConfig next r w
      = @middleware.OAuth2Middleware sample_oauth2.endpoint
          gateway.getAuthConfig next' r w
      /\ http.rwStatus
           (rw (@middleware.OAuth2Middleware sample_oauth2.endpoint
                  gateway.getAuthConfig next r w))
         = Some http.StatusUnauthorized
      /\ sent (@middleware.OAuth2Middleware sample_oauth2.endpoint
                 gateway.getAuthConfig next r w) = sent w).
Proof.
  intros auth w next next' r err.
  assert (H1 : config.Enabled (gateway.getAuthConfig w) = true) by reflexivity.
  assert (H2 : strings_ToLower (config.Type_ (gateway.getAuthConfig w))
               = "oauth2") by reflexivity.
  assert (H3 : config.oaEnabled (config.OAuth2 (gateway.getAuthConfig w)) = true)
    by reflexivity.
  assert (H4 : @middleware.fetchOAuth2Token sample_oauth2.endpoint
                 (config.TokenEndpoint (config.OAuth2 (gateway.getAuthConfig w)))
                 (config.ClientID (config.OAuth2 (gateway.getAuthConfig w)))
                 (config.ClientSecret (config.OAuth2 (gateway.getAuthConfig w))) w
               = (inl err, w)) by reflexivity.
  assert (H5 : http.rwStatus (rw w) = None) by reflexivity.
  split; [exact H1|]. split; [exact H2|]. split; [exact H3|].
  split; [exact H4|]. split; [exact H5|].
  exact (@OAuth2Middleware_fetch_failure_401 sample_oauth2.endpoint
           gateway.getAuthConfig next next' r w err w H1 H2 H3 H4 H5).
Defined.

(** Authentication enabled, type "oauth2", oauth2 section disabled. *)
Lemma auth_chain_open_when_oauth2_section_disabled_witness :
  let w := sample_oauth2.world (sample_oauth2.oauth2_auth false) in
  let next : Handler := fun _ w => set_rw w (http.Write (rw w) "ok") in
  let r := sample.GET "/api/users" in
  config.Enabled (gateway.getAuthConfig w) = true
  /\ strings_ToLower (config.Type_ (gateway.getAuthConfig w)) = "oauth2"
  /\ config.oaEnabled (config.OAuth2 (gateway.getAuthConfig w)) = false
  /\ @middleware.AuthMiddleware sample.collaborators gateway.getAuthConfig
       (@middleware.OAuth2Middleware sample_oauth2.endpoint
          gateway.getAuthConfig next) r w
     = next r w.
Proof.
  intros w next r.
  assert (H1 : config.Enabled (gateway.getAuthConfig w) = true) by reflexivity.
  assert (H2 : strings_ToLower (config.Type_ (gateway.getAuthConfig w))
               = "oauth2") by reflexivity.
  assert (H3 : config.oaEnabled (config.OAuth2 (gateway.getAuthConfig w)) = false)
    by reflexivity.
  split; [exact H1|]. split; [exact H2|]. split; [exact H3|].
  exact (@auth_chain_open_when_oauth2_section_disabled
           sample.collaborators sample_oauth2.endpoint
           gateway.getAuthConfig next r w H1 H2 H3).
Defined.

(** Authentication enabled with type "jwt". *)
Lemma auth_chain_is_jwtAuth_for_jwt_witness :
  let w := sample_oauth2.world sample_oauth2.jwt_auth in
  let next : Handler := fun _ w => set_rw w (http.Write (rw w) "ok") in
  let r := http.set_Header (sample.GET "/api/users")
             [("Authorization", "Bearer secret")] in
  config.Enabled (gateway.getAuthConfig w) = true
  /\ strings_ToLower (config.Type_ (gateway.getAuthConfig w)) = "jwt"
  /\ @middleware.AuthMiddleware sample.collaborators gateway.getAuthConfig
       (@middleware.OAuth2Middleware sample_oauth2.endpoint
          gateway.getAuthConfig next) r w
     = @middleware.jwtAuth sample.collaborators
         (config.JWT (gateway.getAuthConfig w)) next r w.
Proof.
  intros w next r.
  assert (H1 : config.Enabled (gateway.getAuthConfig w) = true) by reflexivity.
  assert (H2 : strings_ToLower (config.Type_ (gateway.getAuthConfig w)) = "jwt")
    by reflexivity.
  split; [exact H1|]. split; [exact H2|].
  exact (@auth_chain_is_jwtAuth_for_jwt
           sample.collaborators sample_oauth2.endpoint
           gateway.getAuthConfig next r w H1 H2).
Defined.

(** ** Route loading *)

Section LoadRoutes.
Import gateway.
Context `{Collaborators}.

Lemma HandleFunc_paths (rt : router.Router Handler) path h :
  (router.mux (router.HandleFunc rt path h)).*1 = (router.mux rt).*1 ++ [path].
Proof. unfold router.HandleFunc. cbn. now rewrite fmap_app. Qed.

Lemma parseable_empty : proxy.parseable proxy.NewReverseProxy.
Proof. intros s p. cbn. rewrite lookup_empty. discriminate. Qed.

(** The case analysis of one iteration of the loop: which target, whether
    it is empty, whether the timeout parses, whether the proxy is cached,
    whether the target parses. *)
Ltac route_cases sd route :=
  destruct sd as [sd|];
  [destruct (String.eqb (config.ServiceName route) "");
   [|destruct (sd (config.ServiceName route)) as [?err|[|?inst ?insts]]]|];
  cbn -[proxy.GetProxy log];
  try (destruct (String.eqb _ "") eqn:?Hempty; cbn -[proxy.GetProxy log]);
  try (destruct (time_ParseDuration (config.Timeout route));
       unfold proxy.GetProxy; cbn).

(** What one iteration leaves alone, whatever the route: the response
    writer, the outbound requests, the configuration and the middlewares;
    the cache and the proxies only grow; the table gains at most the
    route's path, at its end. *)
Lemma register_route_frame sd route g :
  let g' := register_route sd route g in
  (paths g' = paths g \/ paths g' = paths g ++ [config.Path route])
  /\ rw (world g') = rw (world g)
  /\ sent (world g') = sent (world g)
  /\ currentCfg (world g') = currentCfg (world g)
  /\ router.middlewares (r g') = router.middlewares (r g)
  /\ proxy.proxies (reverseProxy g) ⊆ proxy.proxies (reverseProxy g')
  /\ objects (world g) `prefix_of` objects (world g').
Proof.
  unfold register_route, paths. destruct g as [rt rp w].
  route_cases sd route; auto 10.
  all: match goal with
       | |- context [proxy.proxies ?rp0 !! ?t] =>
           destruct (proxy.proxies rp0 !! t) as [q|] eqn:Hq;
           [|destruct (url_Parse t) as [e|u] eqn:Hu]; cbn
       end.
  all: rewrite ?fmap_app; cbn; repeat split; auto;
    try (apply insert_subseteq; assumption);
    try (apply prefix_app_r; reflexivity).
Qed.

(** One iteration, on a cache whose targets all parse: the route is
    registered exactly when [registers] says so, and then with the handler
    built on the proxy cached for the route's target and on the parsed
    timeout, or ten seconds. *)
Lemma register_route_effect sd route g :
  proxy.parseable (reverseProxy g) ->
  let g' := register_route sd route g in
  proxy.parseable (reverseProxy g')
  /\ if registers sd route
     then exists t p,
         resolve sd route = Some t
         /\ proxy.proxies (reverseProxy g') !! t = Some p
         /\ r g' = router.HandleFunc (r g) (config.Path route)
                     (handler.ProxyHandler p t (timeout_of route))
     else r g' = r g /\ reverseProxy g' = reverseProxy g
          /\ objects (world g') = objects (world g).
Proof.
  intros Hpar. unfold register_route, registers, resolve, timeout_of.
  destruct g as [rt rp w]. cbn -[proxy.GetProxy log] in *.
  route_cases sd route; auto.
  all: match goal with
       | |- context [proxy.proxies ?rp0 !! ?t] =>
           destruct (proxy.proxies rp0 !! t) as [q|] eqn:Hq;
           [destruct (Hpar _ _ Hq) as [u Hu]; rewrite Hu; cbn
           |destruct (url_Parse t) as [e|u] eqn:Hu; cbn]
       end.
  all: try (split; [assumption|]; auto; do 2 eexists; repeat split; eauto; fail).
  all: split;
    [intros s p; cbn; rewrite lookup_insert; case_decide; subst; eauto
    |do 2 eexists; repeat split; [apply lookup_insert_eq]].
Qed.

Lemma register_routes_frame sd routes g :
  let g' := register_routes sd routes g in
  (forall path, path ∈ paths g' ->
                path ∈ paths g \/ path ∈ map config.Path routes)
  /\ rw (world g') = rw (world g)
  /\ sent (world g') = sent (world g)
  /\ router.middlewares (r g') = router.middlewares (r g)
  /\ proxy.proxies (reverseProxy g) ⊆ proxy.proxies (reverseProxy g')
  /\ objects (world g) `prefix_of` objects (world g').
Proof.
  revert g. induction routes as [|route routes IH]; intros g;
    cbn [register_routes map].
  - cbn. repeat split; auto.
  - destruct (register_route_frame sd route g)
      as (Hp & Hrw & Hsent & _ & Hmw & Hsub & Hpre).
    destruct (IH (register_route sd route g))
      as (Hp' & Hrw' & Hsent' & Hmw' & Hsub' & Hpre').
    repeat split; try congruence; try (etrans; eassumption).
    intros path Hin. destruct (Hp' path Hin) as [Hin'|Hin'].
    + destruct Hp as [Hp|Hp]; rewrite Hp in Hin'; [auto|].
      apply elem_of_app in Hin' as [Hin'|Hin']; [auto|].
      apply list_elem_of_singleton in Hin' as ->. right. left.
    + right. right. exact Hin'.
Qed.

Lemma register_routes_paths sd routes g :
  proxy.parseable (reverseProxy g) ->
  proxy.parseable (reverseProxy (register_routes sd routes g))
  /\ paths (register_routes sd routes g)
     = paths g ++ map config.Path (List.filter (registers sd) routes).
Proof.
  revert g. induction routes as [|route routes IH]; intros g Hpar;
    cbn [register_routes List.filter].
  - cbn. now rewrite app_nil_r.
  - destruct (register_route_effect sd route g Hpar) as [Hpar' Heff].
    destruct (IH _ Hpar') as [Hpar'' ->]. split; [exact Hpar''|].
    destruct (registers sd route).
    + destruct Heff as (t & p & _ & _ & Hr). unfold paths at 1.
      rewrite Hr, HandleFunc_paths. cbn. now rewrite <- app_assoc.
    + destruct Heff as (Hr & _). unfold paths at 1. now rewrite Hr.
Qed.

End LoadRoutes.


(** X13.  On a cache whose targets all parse (as every cache built by
    [GetProxy] is), [loadRoutes] leaves a table whose paths are exactly
    the paths of the configured routes that resolve - a discovered first
    instance or the static target, not empty, accepted by the URL parser -
    in configuration order; routes whose discovery fails or returns no
    instance, or whose target is empty or malformed, are skipped without
    affecting the others. *)
Theorem loadRoutes_registers_resolvable_routes `{Collaborators}
  (sd : option consul.ServiceDiscovery) (g : gateway.Gateway) :
  proxy.parseable (gateway.reverseProxy g) ->
  gateway.paths (gateway.loadRoutes sd g)
  = map config.Path
        (List.filter (gateway.registers sd)
                     (config.Routes (currentCfg (gateway.world g))))
  /\ proxy.parseable (gateway.reverseProxy (gateway.loadRoutes sd g)).
Proof.
  intros Hpar. unfold gateway.loadRoutes.
  destruct (register_routes_paths sd
              (config.Routes (currentCfg (gateway.world g)))
              (gateway.clear g) Hpar) as [Hpar' Hpaths].
  split; [|exact Hpar'].
  unfold gateway.paths in *. cbn in *. exact Hpaths.
Qed.

(** Four routes: one discovered, one whose service has no instance, one
    without target, one static. *)
Lemma loadRoutes_registers_resolvable_routes_witness :
  let routes := [sample.users_route;
                 config.mkRouteConfig "/api/orders" "" "order-service" "10s";
                 config.mkRouteConfig "/api/none" "" "" "1s";
                 config.mkRouteConfig "/" "http://localhost:8083" "" "3s"] in
  let g := @gateway.start sample.collaborators (sample.cfg routes) in
  let sd := Some sample.discovery in
  @proxy.parseable sample.collaborators (gateway.reverseProxy g)
  /\ (gateway.paths (@gateway.loadRoutes sample.collaborators sd g)
      = map config.Path
            (List.filter (@gateway.registers sample.collaborators sd)
                         (config.Routes (currentCfg (gateway.world g))))
      /\ @proxy.parseable sample.collaborators
           (gateway.reverseProxy (@gateway.loadRoutes sample.collaborators sd g))).
Proof.
  intros routes g sd.
  assert (H0 : @proxy.parseable sample.collaborators (gateway.reverseProxy g))
    by apply parseable_empty.
  split; [exact H0|].
  exact (@loadRoutes_registers_resolvable_routes sample.collaborators sd g H0).
Defined.

(** The table of the witness above. *)
Example loadRoutes_sample_table :
  let routes := [sample.users_route;
                 config.mkRouteConfig "/api/orders" "" "order-service" "10s";
                 config.mkRouteConfig "/api/none" "" "" "1s";
                 config.mkRouteConfig "/" "http://localhost:8083" "" "3s"] in
  gateway.paths
    (@gateway.loadRoutes sample.collaborators (Some sample.discovery)
       (@gateway.start sample.collaborators (sample.cfg routes)))
  = ["/api/users"; "/"].
Proof. vm_compute. reflexivity. Qed.



(** Before the reload the same request is served by the metrics handler. *)
Example metrics_served_before_reload :
  let metrics : Handler := fun _ w => set_rw w (http.Write (rw w) "# metrics") in
  let g0 := @gateway.loadRoutes sample.collaborators None
              (@gateway.start sample.collaborators
                 (sample.cfg [sample.static_users])) in
  let g := gateway.mkGateway
             (router.HandleFunc (gateway.r g0) "/metrics" metrics)
             (gateway.reverseProxy g0) (gateway.world g0) in
  http.rwStatus (rw (gateway.world (gateway.ServeHTTP g (sample.GET "/metrics"))))
  = Some http.StatusOK.
Proof. vm_compute. reflexivity. Qed.

(** X15.  No file event evicts a cached proxy or touches the middleware
    list: across [on_event], whether the load fails or succeeds, every
    cached target keeps its proxy address, the proxies created so far stay
    in place (new ones are appended), and the router's middlewares, the
    response writer and the outbound requests are unchanged. *)
Theorem on_event_cache_only_grows `{Collaborators}
  (op : Z) (name : string) (loaded : string + config.Config)
  (sd : option consul.ServiceDiscovery) (g : gateway.Gateway) :
  let g' := gateway.on_event op name loaded sd g in
  proxy.proxies (gateway.reverseProxy g) ⊆ proxy.proxies (gateway.reverseProxy g')
  /\ objects (gateway.world g) `prefix_of` objects (gateway.world g')
  /\ router.middlewares (gateway.r g') = router.middlewares (gateway.r g)
  /\ rw (gateway.world g') = rw (gateway.world g)
  /\ sent (gateway.world g') = sent (gateway.world g).
Proof.
  unfold gateway.on_event. destruct (gateway.is_change op); [|cbn; auto].
  destruct loaded as [err|newCfg]; [cbn; auto|].
  unfold gateway.loadRoutes. cbn -[gateway.register_routes].
  destruct (register_routes_frame sd (config.Routes newCfg)
              (gateway.clear
                 (gateway.updateConfig newCfg
                    (gateway.set_world g
                       (log zap.InfoLevel "配置文件发生变化，重新加载配置"
                            [("file", name)] (gateway.world g))))))
    as (_ & Hrw & Hsent & Hmw & Hsub & Hpre).
  cbn -[gateway.register_routes] in *. auto.
Qed.

Lemma loadRoutes_with_cfg `{Collaborators}
  (sd : option consul.ServiceDiscovery) (g : gateway.Gateway) :
  proxy.parseable (gateway.reverseProxy g) ->
  currentCfg (gateway.world (gateway.loadRoutes sd g))
  = currentCfg (gateway.world g)
  /\ gateway.paths (gateway.loadRoutes sd g)
     = map config.Path
           (List.filter (gateway.registers sd)
                        (config.Routes (currentCfg (gateway.world g))))
  /\ proxy.parseable (gateway.reverseProxy (gateway.loadRoutes sd g)).
Proof.
  intros Hpar.
  destruct (register_routes_paths sd
              (config.Routes (currentCfg (gateway.world g)))
              (gateway.clear g) Hpar) as [Hpar' Hpaths].
  unfold gateway.loadRoutes. split; [|split].
  - cbn. now rewrite register_routes_currentCfg.
  - unfold gateway.paths in *. cbn in *. exact Hpaths.
  - exact Hpar'.
Qed.

(** X16.  A successful reload makes the loaded configuration the current
    one and the route table exactly the resolvable routes of that
    configuration, in its order: routes of the previous configuration that
    the new one does not list are gone. *)
Theorem on_event_reload_installs_new_routes `{Collaborators}
  (op : Z) (name : string) (newCfg : config.Config)
  (sd : option consul.ServiceDiscovery) (g : gateway.Gateway) :
  gateway.is_change op = true ->
  proxy.parseable (gateway.reverseProxy g) ->
  let g' := gateway.on_event op name (inr newCfg) sd g in
  currentCfg (gateway.world g') = newCfg
  /\ gateway.paths g'
     = map config.Path
           (List.filter (gateway.registers sd) (config.Routes newCfg))
  /\ proxy.parseable (gateway.reverseProxy g').
Proof.
  intros Hop Hpar. unfold gateway.on_event. rewrite Hop.
  set (g1 := gateway.updateConfig newCfg _).
  assert (Hpar1 : proxy.parseable (gateway.reverseProxy g1)) by exact Hpar.
  destruct (loadRoutes_with_cfg sd g1 Hpar1) as (Hcfg & Hpaths & Hpar').
  cbn zeta. split; [|split]; [exact Hcfg|exact Hpaths|exact Hpar'].
Qed.

(** A reload that replaces the users route by the orders route. *)
Lemma on_event_reload_installs_new_routes_witness :
  let g := @gateway.start sample.collaborators (sample.cfg [sample.static_users]) in
  let newCfg := sample.cfg [sample.static_orders] in
  let g' := @gateway.on_event sample.collaborators fsnotify.Write
              "./config/config.yaml" (inr newCfg) None g in
  gateway.is_change fsnotify.Write = true
  /\ @proxy.parseable sample.collaborators (gateway.reverseProxy g)
  /\ (currentCfg (gateway.world g') = newCfg
      /\ gateway.paths g'
         = map config.Path
               (List.filter (@gateway.registers sample.collaborators None)
                            (config.Routes newCfg))
      /\ @proxy.parseable sample.collaborators (gateway.reverseProxy g')).
Proof.
  intros g newCfg g'.
  assert (H1 : gateway.is_change fsnotify.Write = true) by reflexivity.
  assert (H2 : @proxy.parseable sample.collaborators (gateway.reverseProxy g))
    by apply parseable_empty.
  split; [exact H1|]. split; [exact H2|].
  exact (@on_event_reload_installs_new_routes sample.collaborators
           fsnotify.Write "./config/config.yaml" newCfg None g H1 H2).
Defined.

(** X17.  A route that resolves is registered with the handler built on
    the proxy cached under its own target string and on its own timeout -
    the parsed duration, ten seconds when the string does not parse -
    wrapped by all the router's middlewares and appended to the table; a
    route that does not resolve leaves router, cache and proxies as they
    were. *)
Theorem register_route_binds_cached_proxy `{Collaborators}
  (sd : option consul.ServiceDiscovery) (route : config.RouteConfig)
  (g : gateway.Gateway) :
  proxy.parseable (gateway.reverseProxy g) ->
  let g' := gateway.register_route sd route g in
  if gateway.registers sd route
  then exists t p,
      gateway.resolve sd route = Some t
      /\ proxy.proxies (gateway.reverseProxy g') !! t = Some p
      /\ router.mux (gateway.r g')
         = router.mux (gateway.r g)
             ++ [(config.Path route,
                  foldr (fun m next => m next)
                        (handler.ProxyHandler p t
                           (match time_ParseDuration (config.Timeout route) with
                            | Some d => d
                            | None => 10 * Second
                            end))
                        (router.middlewares (gateway.r g)))]
  else gateway.r g' = gateway.r g
       /\ gateway.reverseProxy g' = gateway.reverseProxy g
       /\ objects (gateway.world g') = objects (gateway.world g).
Proof.
  intros Hpar. cbn zeta.
  destruct (register_route_effect sd route g Hpar) as [_ Heff].
  destruct (gateway.registers sd route); [|exact Heff].
  destruct Heff as (t & p & Hres & Hp & Hr).
  exists t, p. split; [exact Hres|]. split; [exact Hp|].
  rewrite Hr. unfold router.HandleFunc. cbn. now rewrite wrap_from_all.
Qed.

(** The discovered route of the sample configuration, with a timeout
    string that does not parse. *)
Lemma register_route_binds_cached_proxy_witness :
  let route := config.mkRouteConfig "/api/users" "" "user-service" "soon" in
  let sd := Some sample.discovery in
  let g := @gateway.start sample.collaborators (sample.cfg [route]) in
  let g' := @gateway.register_route sample.collaborators sd route g in
  @proxy.parseable sample.collaborators (gateway.reverseProxy g)
  /\ if @gateway.registers sample.collaborators sd route
     then exists t p,
         gateway.resolve sd route = Some t
         /\ proxy.proxies (gateway.reverseProxy g') !! t = Some p
         /\ router.mux (gateway.r g')
            = router.mux (gateway.r g)
                ++ [(config.Path route,
                     foldr (fun m next => m next)
                           (@handler.ProxyHandler sample.collaborators p t
                              (match sample.time_ParseDuration
                                       (config.Timeout route) with
                               | Some d => d
                               | None => 10 * Second
                               end))
                           (router.middlewares (gateway.r g)))]
     else gateway.r g' = gateway.r g
          /\ gateway.reverseProxy g' = gateway.reverseProxy g
          /\ objects (gateway.world g') = objects (gateway.world g).
Proof.
  intros route sd g g'.
  assert (H0 : @proxy.parseable sample.collaborators (gateway.reverseProxy g))
    by apply parseable_empty.
  split; [exact H0|].
  exact (@register_route_binds_cached_proxy sample.collaborators sd route g H0).
Defined.

(** ** The route handler *)

(** X18.  What a route handler does with a request is settled by the
    request, the handler's own target and timeout, and the transport - not
    by what the shared proxy's fields held before, nor by the
    configuration.  If the transport fails the client gets 502 with the
    handler's message and one error is logged; otherwise the backend's
    status and body are relayed and nothing is logged.  Exactly one
    outbound request is made. *)
Theorem ProxyHandler_outcome `{Collaborators}
  (p : nat) (targetURL : string) (timeout : Z) (r : http.Request) (w : World)
  (obj : httputil.ReverseProxy) :
  objects w !! p = Some obj ->
  http.rwStatus (rw w) = None ->
  let outreq := handler.director targetURL (http.WithTimeout r timeout) in
  let w' := handler.ProxyHandler p targetURL timeout r w in
  sent w' = sent w ++ [outreq]
  /\ currentCfg w' = currentCfg w
  /\ http.rwStatus (rw w')
     = Some match RoundTrip outreq with
            | inl _ => http.StatusBadGateway
            | inr res => http.StatusCode res
            end
  /\ http.rwBody (rw w')
     = http.rwBody (rw w)
         +:+ match RoundTrip outreq with
             | inl _ => "后端服务不可用"
             | inr res => http.Body res
             end
  /\ logs w'
     = logs w
         ++ match RoundTrip outreq with
            | inl err =>
                [zap.mkEntry zap.ErrorLevel "反向代理请求失败"
                   [("path", url.Path (http.URL r));
                    ("target_url", targetURL); ("error", err)]]
            | inr _ => []
            end.
Proof.
  intros Hobj Hfresh. cbn zeta.
  pose proof (set_fields_objects p (handler.director targetURL)
                (handler.errorHandler targetURL) w) as Hset.
  rewrite Hobj in Hset.
  assert (Hp : (p < length (objects w))%nat) by (eapply lookup_lt_Some; eauto).
  unfold handler.ProxyHandler, ReverseProxy_ServeHTTP. cbn zeta.
  rewrite Hset, list_lookup_insert_eq by exact Hp.
  cbn [httputil.Director httputil.ErrorHandler].
  destruct (RoundTrip _) as [err|res].
  - unfold handler.errorHandler, http.Write, http.WriteHeader. cbn.
    rewrite Hfresh. cbn. auto.
  - destruct (copy_headers_keeps (http.respHeader res) (rw w)) as [Hs Hb].
    cbn zeta in Hs, Hb. unfold http.WriteHeader. cbn.
    rewrite Hs, Hb, Hfresh. cbn. rewrite app_nil_r. auto.
Qed.

(** A request through a proxy that some other closure pair was assigned
    to. *)
Lemma ProxyHandler_outcome_witness :
  let obj := httputil.mkReverseProxy (handler.director "http://elsewhere:1")
                                     (handler.errorHandler "http://elsewhere:1") in
  let w := mkWorld (sample.cfg []) [obj] [] [] http.NewResponseWriter in
  let r := sample.GET "/api/users" in
  let targetURL := "10.0.0.5:9000" in
  let timeout := 5 * Second in
  let outreq := handler.director targetURL (http.WithTimeout r timeout) in
  let w' := @handler.ProxyHandler sample.collaborators 0 targetURL timeout r w in
  objects w !! 0%nat = Some obj
  /\ http.rwStatus (rw w) = None
  /\ (sent w' = sent w ++ [outreq]
      /\ currentCfg w' = currentCfg w
      /\ http.rwStatus (rw w')
         = Some match sample.RoundTrip outreq with
                | inl _ => http.StatusBadGateway
                | inr res => http.StatusCode res
                end
      /\ http.rwBody (rw w')
         = http.rwBody (rw w)
             +:+ match sample.RoundTrip outreq with
                 | inl _ => "后端服务不可用"
                 | inr res => http.Body res
                 end
      /\ logs w'
         = logs w
             ++ match sample.RoundTrip outreq with
                | inl err =>
                    [zap.mkEntry zap.ErrorLevel "反向代理请求失败"
                       [("path", url.Path (http.URL r));
                        ("target_url", targetURL); ("error", err)]]
                | inr _ => []
                end).
Proof.
  intros obj w r targetURL timeout outreq w'.
  assert (H1 : objects w !! 0%nat = Some obj) by reflexivity.
  assert (H2 : http.rwStatus (rw w) = None) by reflexivity.
  split; [exact H1|]. split; [exact H2|].
  exact (@ProxyHandler_outcome sample.collaborators 0 targetURL timeout r w obj
           H1 H2).
Defined.


(** ** The router's middleware list *)

(** X20.  A middleware added with [Use] does not touch the routes already
    registered; it wraps the routes registered afterwards, as their
    innermost layer (next to the terminal handler), and it survives
    [ClearRoutes], which empties the table only. *)
Theorem Use_wraps_later_routes_innermost
  (H : Type) (r : router.Router H) (m : H -> H) (path : string) (handler : H) :
  router.mux (router.Use r m) = router.mux r
  /\ router.mux (router.HandleFunc (router.Use r m) path handler)
     = router.mux r
         ++ [(path, foldr (fun m next => m next) (m handler)
                          (router.middlewares r))]
  /\ router.middlewares (router.ClearRoutes (router.Use r m))
     = router.middlewares r ++ [m]
  /\ router.mux (router.ClearRoutes (router.HandleFunc r path handler)) = [].
Proof.
  split; [reflexivity|]. split; [|split; reflexivity].
  unfold router.HandleFunc. cbn -[router.wrap_from].
  now rewrite wrap_from_all, foldr_app.
Qed.

(** ** Discovery through Consul *)

(** X21.  A route that names a service, with discovery available and at
    least one healthy entry, is targeted at the first entry: "http://",
    the service's address - the node's address when the service registered
    none - a colon and the port.  The target is never empty, so such a
    route is never skipped for want of a target, even when both addresses
    are empty. *)
Theorem resolve_first_healthy_entry
  (health_Service : string -> string + list consul.ServiceEntry)
  (route : config.RouteConfig)
  (entry : consul.ServiceEntry) (entries : list consul.ServiceEntry) :
  config.ServiceName route <> "" ->
  health_Service (config.ServiceName route) = inr (entry :: entries) ->
  let host := if String.eqb (consul.Service_Address entry) ""
              then consul.Node_Address entry
              else consul.Service_Address entry in
  let target := "http://" +:+ host +:+ ":" +:+ Itoa (consul.Service_Port entry) in
  gateway.resolve (Some (consul.GetServiceInstances health_Service)) route
  = Some target
  /\ String.eqb target "" = false.
Proof.
  intros Hname Hq. cbn zeta. unfold gateway.resolve, consul.GetServiceInstances.
  destruct (String.eqb_spec (config.ServiceName route) ""); [contradiction|].
  cbn [negb]. rewrite Hq. cbn [map consul.Host].
  destruct (String.eqb (consul.Service_Address entry) ""); split; reflexivity.
Qed.

(** An entry registered without an address, on the node 10.0.0.7. *)
Lemma resolve_first_healthy_entry_witness :
  let health_Service : string -> string + list consul.ServiceEntry :=
    fun _ => inr [consul.mkServiceEntry "user-service-1" "" 9000 "10.0.0.7"] in
  let entry := consul.mkServiceEntry "user-service-1" "" 9000 "10.0.0.7" in
  let host := if String.eqb (consul.Service_Address entry) ""
              then consul.Node_Address entry
              else consul.Service_Address entry in
  let target := "http://" +:+ host +:+ ":" +:+ Itoa (consul.Service_Port entry) in
  config.ServiceName sample.users_route <> ""
  /\ health_Service (config.ServiceName sample.users_route) = inr (entry :: [])
  /\ (gateway.resolve (Some (consul.GetServiceInstances health_Service))
        sample.users_route = Some target
      /\ String.eqb target "" = false).
Proof.
  intros health_Service entry host target.
  assert (H1 : config.ServiceName sample.users_route <> "")
    by (vm_compute; discriminate).
  assert (H2 : health_Service (config.ServiceName sample.users_route)
               = inr (entry :: [])) by reflexivity.
  split; [exact H1|]. split; [exact H2|].
  exact (resolve_first_healthy_entry health_Service sample.users_route
           entry [] H1 H2).
Defined.
